(** * EvalSetting: the evaluation-protocol options record

    A shallow embedding of [config/eval_setting.py] and the properties its
    specification states about it.

    The file has three parts:
    - a model of the Python values and built-ins the class relies on;
    - the class itself, one definition per method, written in a small
      state-and-exception monad over the instance;
    - the properties. *)

From Stdlib Require Import String Ascii List ZArith QArith Bool.
From Stdlib Require Import Permutation Sorted Lia DecimalString.
Import ListNotations.
Local Open Scope string_scope.

(** ** Python values *)

(** Insertion-ordered association lists stand for [dict]s whose keys are
    strings: every dictionary the class builds is keyed by keyword names. *)
Definition alist (A : Type) : Type := list (string * A).

Fixpoint alist_get {A} (k : string) (d : alist A) : option A :=
  match d with
  | [] => None
  | (k', v) :: d' => if String.eqb k k' then Some v else alist_get k d'
  end.

(** [d[k] = v]: an existing key keeps its position, a new key goes last. *)
Fixpoint alist_set {A} (k : string) (v : A) (d : alist A) : alist A :=
  match d with
  | [] => [(k, v)]
  | (k', v') :: d' =>
      if String.eqb k k' then (k', v) :: d' else (k', v') :: alist_set k v d'
  end.

Definition alist_remove {A} (k : string) (d : alist A) : alist A :=
  filter (fun kv => negb (String.eqb k (fst kv))) d.

Definition alist_keys {A} (d : alist A) : list string := map fst d.

Definition alist_mem {A} (k : string) (d : alist A) : bool :=
  existsb (String.eqb k) (alist_keys d).

(** [d.update(other)] *)
Definition alist_update {A} (d other : alist A) : alist A :=
  fold_left (fun acc kv => alist_set (fst kv) (snd kv) acc) other d.

(** The values that reach the class.  A finite [float] stands for the
    rational it denotes; the other floats are the two infinities and the
    not-a-number.  A string is the sequence of its characters. *)
#[warnings="-register-all"]
Inductive value : Type :=
| VNone
| VBool (b : bool)
| VInt (z : Z)
| VFloat (q : Q)
| VStr (s : string)
| VList (l : list value)
| VDict (d : alist value)
| VInf (negative : bool)
| VNaN.

Definition dict : Type := alist value.

Inductive exn : Type :=
| ValueError (msg : string)
| TypeError
| KeyError (key : string)
| AttributeError.

(** A computation that may raise. *)
Definition result (A : Type) : Type := (exn + A)%type.

Definition is_None (v : value) : bool :=
  match v with VNone => true | _ => false end.

Definition isinstance_str (v : value) : bool :=
  match v with VStr _ => true | _ => false end.

Definition isinstance_list (v : value) : bool :=
  match v with VList _ => true | _ => false end.

(** [len(v)] *)
Definition py_len (v : value) : result nat :=
  match v with
  | VStr s => inr (String.length s)
  | VList l => inr (List.length l)
  | VDict d => inr (List.length d)
  | _ => inl TypeError
  end.

(** [bool(v)] *)
Definition py_truthy (v : value) : bool :=
  match v with
  | VNone => false
  | VBool b => b
  | VInt z => negb (Z.eqb z 0)
  | VFloat q => negb (Qeq_bool q 0)
  | VStr s => negb (String.eqb s "")
  | VList l => negb (Nat.eqb (List.length l) 0)
  | VDict d => negb (Nat.eqb (List.length d) 0)
  | VInf _ => true
  | VNaN => true
  end.

(** The rationals with the two infinities, in their order. *)
Inductive extended : Type :=
| Minus_inf
| Finite (q : Q)
| Plus_inf.

Definition Qltb (x y : Q) : bool :=
  match (x ?= y)%Q with Lt => true | _ => false end.

Definition ext_ltb (x y : extended) : bool :=
  match x, y with
  | Minus_inf, Minus_inf => false
  | Minus_inf, _ => true
  | Finite _, Minus_inf => false
  | Finite p, Finite q => Qltb p q
  | Finite _, Plus_inf => true
  | Plus_inf, _ => false
  end.

Definition ext_eqb (x y : extended) : bool :=
  match x, y with
  | Minus_inf, Minus_inf => true
  | Finite p, Finite q => Qeq_bool p q
  | Plus_inf, Plus_inf => true
  | _, _ => false
  end.

(** Booleans, integers and floats compare with each other by value; the
    not-a-number has none. *)
Definition num_of (v : value) : option extended :=
  match v with
  | VBool b => Some (Finite (if b then 1 else 0)%Q)
  | VInt z => Some (Finite (inject_Z z))
  | VFloat q => Some (Finite q)
  | VInf negative => Some (if negative then Minus_inf else Plus_inf)
  | _ => None
  end.

(** A number that has a value: any boolean, integer or float but the
    not-a-number. *)
Definition is_number (v : value) : bool :=
  match num_of v with Some _ => true | None => false end.

Definition is_nan (v : value) : bool :=
  match v with VNaN => true | _ => false end.

(** [a == b]; the not-a-number equals nothing, itself included (two
    occurrences are taken as two objects). *)
Fixpoint py_eq (a b : value) {struct a} : bool :=
  match a, b with
  | VNone, VNone => true
  | VStr s, VStr t => String.eqb s t
  | VList l, VList m =>
      (fix all2 (l m : list value) {struct l} : bool :=
         match l, m with
         | [], [] => true
         | x :: l', y :: m' => py_eq x y && all2 l' m'
         | _, _ => false
         end) l m
  | VDict d, VDict e =>
      Nat.eqb (List.length d) (List.length e) &&
      (fix sub (d : alist value) {struct d} : bool :=
         match d with
         | [] => true
         | (k, v) :: d' =>
             match alist_get k e with
             | Some w => py_eq v w
             | None => false
             end && sub d'
         end) d
  | _, _ =>
      match num_of a, num_of b with
      | Some x, Some y => ext_eqb x y
      | _, _ => false
      end
  end.

(** [a < b]: defined between numbers, between strings and, lexicographically,
    between lists; [TypeError] otherwise.  Against the not-a-number every
    number compares, and the answer is [False] either way round. *)
Fixpoint py_lt (a b : value) {struct a} : result bool :=
  match a, b with
  | VStr s, VStr t => inr (String.ltb s t)
  | VList l, VList m =>
      (fix lex (l m : list value) {struct l} : result bool :=
         match l, m with
         | [], [] => inr false
         | [], _ :: _ => inr true
         | _ :: _, [] => inr false
         | x :: l', y :: m' => if py_eq x y then lex l' m' else py_lt x y
         end) l m
  | _, _ =>
      match num_of a, num_of b with
      | Some x, Some y => inr (ext_ltb x y)
      | _, _ =>
          if (is_number a || is_nan a) && (is_number b || is_nan b)
          then inr false
          else inl TypeError
      end
  end.

(** [list.sort]: a stable sort that only asks [<].  [insert x l] puts [x],
    which stood before every element of [l], in front of the first element
    that is not smaller than it. *)
Fixpoint insert (x : value) (l : list value) : result (list value) :=
  match l with
  | [] => inr [x]
  | y :: l' =>
      match py_lt y x with
      | inl e => inl e
      | inr true =>
          match insert x l' with
          | inl e => inl e
          | inr r => inr (y :: r)
          end
      | inr false => inr (x :: y :: l')
      end
  end.

Fixpoint sort_asc (l : list value) : result (list value) :=
  match l with
  | [] => inr []
  | x :: l' =>
      match sort_asc l' with
      | inl e => inl e
      | inr s => insert x s
      end
  end.

(** A not-a-number occurs in the value, at any depth. *)
Fixpoint has_nan (v : value) : bool :=
  match v with
  | VNaN => true
  | VList l =>
      (fix any (l : list value) : bool :=
         match l with
         | [] => false
         | x :: l' => has_nan x || any l'
         end) l
  | VDict d =>
      (fix any (d : alist value) : bool :=
         match d with
         | [] => false
         | (_, x) :: d' => has_nan x || any d'
         end) d
  | _ => false
  end.

(** [v in set(members)]: the candidate is hashed first, and lists and
    dictionaries are not hashable. *)
Definition set_contains (members : list string) (v : value) : result bool :=
  match v with
  | VList _ | VDict _ => inl TypeError
  | VStr s => inr (existsb (String.eqb s) members)
  | _ => inr false
  end.

(** [v[key]] for a string key. *)
Definition py_getitem (v : value) (key : string) : result value :=
  match v with
  | VDict d =>
      match alist_get key d with
      | Some w => inr w
      | None => inl (KeyError key)
      end
  | _ => inl TypeError
  end.

(** [v.update(kwargs)] *)
Definition py_update (v : value) (kwargs : dict) : result value :=
  match v with
  | VDict d => inr (VDict (alist_update d kwargs))
  | _ => inl AttributeError
  end.

(** What the interpreter decides and the class does not: how a value prints
    ([repr]), in which order a set of strings is enumerated, and what its
    sort makes of a list in which a not-a-number occurs.  Such a list has no
    sorted order, since every comparison with a not-a-number answers
    [False], and where its elements end up depends on the comparisons the
    interpreter's algorithm happens to make.  Two things hold of every
    list: the sort keeps the elements, and it leaves as it is a list in
    which no element is smaller than the one before it, which it takes for
    a single ascending run. *)
Class Runtime : Type := {
  repr : value -> string;
  set_iter : list string -> list string;
  set_iter_perm : forall l, NoDup l -> Permutation (set_iter l) l;
  nan_sort : list value -> result (list value);
  nan_sort_perm : forall l s, nan_sort l = inr s -> Permutation l s;
  nan_sort_run :
    forall l, Sorted (fun a b => py_lt b a = inr false) l -> nan_sort l = inr l
}.

(** The ascending sort of the interpreter: the stable sort above, which is
    what any stable sort gives when the comparisons agree with an order,
    and the interpreter's own result otherwise. *)
Definition builtin_sort `{Runtime} (l : list value) : result (list value) :=
  if existsb has_nan l then nan_sort l else sort_asc l.

(** [l.sort(reverse=r)]: with [reverse] the list is reversed, sorted and
    reversed again, which keeps equal elements in their original order.
    The sort is in place: the caller's list object is reordered, also in
    part when a comparison raises, and whoever holds that object sees it
    reordered.  Here the sorted list is returned to the one who sorts, and
    values are not objects: the methods below speak for an instance that
    does not hold the list object it is asked to sort. *)
Definition list_sort `{Runtime} (reverse : bool) (l : list value)
  : result (list value) :=
  if reverse then
    match builtin_sort (rev l) with
    | inl e => inl e
    | inr s => inr (rev s)
    end
  else builtin_sort l.

(** [str(v)], which is what an empty format field applies. *)
Definition py_str `{Runtime} (v : value) : string :=
  match v with
  | VStr s => s
  | _ => repr v
  end.

(** [list(set(members))] *)
Definition list_of_set `{Runtime} (members : list string) : value :=
  VList (map VStr (set_iter members)).

(** ** The instance and its methods *)

(** Modelled from the spec: the configuration source, whose class is not
    among the sources.  The class only ever subscripts it with a string
    key, and the source answers [None] for a key it does not hold rather
    than raising; so it is taken as a total lookup. *)
Definition Config : Type := string -> value.

Record EvalSetting : Type := mkEvalSetting {
  config : Config;
  group_field : value;
  ordering_args : value;
  split_args : value;
  neg_sample_args : value
}.

(** What [self.name] finds: an instance attribute, or a method of the class
    bound to the instance. *)
Inductive attribute : Type :=
| Data (v : value)
| BoundMethod (name : string).

Definition method_names : list string :=
  ["__init__"; "__str__"; "__repr__"; "group_by"; "group_by_user";
   "set_ordering"; "shuffle"; "sort_by"; "set_splitting"; "leave_one_out";
   "split_by_ratio"; "split_by_value"; "set_neg_sampling"; "neg_sample_to";
   "full_sort"; "neg_sample_by"].

Definition getattr (self : EvalSetting) (name : string) : result attribute :=
  if String.eqb name "group_field" then inr (Data (group_field self))
  else if String.eqb name "ordering_args" then inr (Data (ordering_args self))
  else if String.eqb name "split_args" then inr (Data (split_args self))
  else if String.eqb name "neg_sample_args" then inr (Data (neg_sample_args self))
  else if existsb (String.eqb name) method_names then inr (BoundMethod name)
  else inl AttributeError.

(** [a is None] *)
Definition attr_is_None (a : attribute) : bool :=
  match a with
  | Data v => is_None v
  | BoundMethod _ => false
  end.

(** [setattr(self, name, v)] for the attributes the record has. *)
Definition setattr (self : EvalSetting) (name : string) (v : value) : EvalSetting :=
  if String.eqb name "group_field" then
    mkEvalSetting (config self) v (ordering_args self) (split_args self) (neg_sample_args self)
  else if String.eqb name "ordering_args" then
    mkEvalSetting (config self) (group_field self) v (split_args self) (neg_sample_args self)
  else if String.eqb name "split_args" then
    mkEvalSetting (config self) (group_field self) (ordering_args self) v (neg_sample_args self)
  else if String.eqb name "neg_sample_args" then
    mkEvalSetting (config self) (group_field self) (ordering_args self) (split_args self) v
  else self.

(** Methods run on the instance, may change it and may raise; the instance
    is there after a raise as well. *)
Definition M (A : Type) : Type := EvalSetting -> result A * EvalSetting.

Definition ret {A} (a : A) : M A := fun self => (inr a, self).

Definition bind {A B} (m : M A) (k : A -> M B) : M B :=
  fun self =>
    match m self with
    | (inr a, self') => k a self'
    | (inl e, self') => (inl e, self')
    end.

Definition raise {A} (e : exn) : M A := fun self => (inl e, self).

Definition lift {A} (r : result A) : M A := fun self => (r, self).

Definition read {A} (f : EvalSetting -> A) : M A := fun self => (inr (f self), self).

Definition assign (name : string) (v : value) : M unit :=
  fun self => (inr tt, setattr self name v).

Declare Scope py_scope.
Delimit Scope py_scope with py.
Notation "x <- m ;; k" := (bind m (fun x => k))
  (at level 100, m at next level, right associativity) : py_scope.
Notation "' p <- m ;; k" := (bind m (fun x => match x with p => k end))
  (at level 100, p pattern, m at next level, right associativity) : py_scope.
Notation "m ;; k" := (bind m (fun _ => k))
  (at level 100, right associativity) : py_scope.
Local Open Scope py_scope.

(** A parameter with a default. *)
Definition arg_or (given : option value) (default : value) : value :=
  match given with Some v => v | None => default end.

(** Binding of the parameters [self], [strategy] (default ['none']) and the
    keyword catch-all [kwargs] at a method call that passes at most one
    positional argument and some keywords: [self] is always bound by the
    method call, [strategy] comes from the positional argument or from the
    keyword of that name, and what is left of the keywords is [kwargs]. *)
Definition bind_strategy (positional : option value) (keywords : dict)
  : result (value * dict) :=
  if alist_mem "self" keywords then inl TypeError
  else
    match positional, alist_get "strategy" keywords with
    | Some _, Some _ => inl TypeError
    | Some s, None => inr (s, keywords)
    | None, Some s => inr (s, alist_remove "strategy" keywords)
    | None, None => inr (VStr "none", keywords)
    end.

Definition newline : string := String (ascii_of_nat 10) "".
Definition tab : string := String (ascii_of_nat 9) "".

Section Methods.
Context `{Runtime}.

Definition __init__ (cfg : Config) : EvalSetting :=
  let self := mkEvalSetting cfg VNone VNone VNone VNone in
  let presetting_args := ["group_field"; "ordering_args"; "split_args"; "neg_sample_args"] in
  fold_left
    (fun self args =>
       if negb (is_None (cfg args)) then setattr self args (cfg args) else self)
    presetting_args self.

(** One line of the summary: [fmt.format(spec)] when the spec is there and
    its strategy is not ['none'], the fixed line otherwise. *)
Definition strategy_line (label absent : string) (spec : value) : result string :=
  if negb (is_None spec) then
    match py_getitem spec "strategy" with
    | inl e => inl e
    | inr s =>
        if negb (py_eq s (VStr "none"))
        then inr (tab ++ label ++ ": " ++ py_str spec ++ newline)
        else inr (tab ++ absent ++ newline)
    end
  else inr (tab ++ absent ++ newline).

Definition __str__ (self : EvalSetting) : result string :=
  let info := "Evaluation Setting:" ++ newline in
  let info :=
    info ++ (if negb (is_None (group_field self))
             then tab ++ "Group by " ++ py_str (group_field self) ++ newline
             else tab ++ "No Grouping" ++ newline) in
  match strategy_line "Ordering" "No Ordering" (ordering_args self) with
  | inl e => inl e
  | inr l2 =>
      let info := info ++ l2 in
      match strategy_line "Splitting" "No Splitting" (split_args self) with
      | inl e => inl e
      | inr l3 =>
          let info := info ++ l3 in
          match strategy_line "Negative Sampling" "No Negative Sampling"
                  (neg_sample_args self) with
          | inl e => inl e
          | inr l4 => inr (info ++ l4)
          end
      end
  end.

Definition __repr__ (self : EvalSetting) : result string := __str__ self.

Definition group_by (field : option value) : M unit :=
  assign "group_field" (arg_or field VNone).

Definition group_by_user : M unit :=
  user <- read (fun self => config self "USER_ID_FIELD") ;;
  assign "group_field" user.

Definition set_ordering (strategy : option value) (keywords : dict) : M unit :=
  '(strategy, kwargs) <- lift (bind_strategy strategy keywords) ;;
  let legal_strategy := ["none"; "shuffle"; "by"] in
  legal <- lift (set_contains legal_strategy strategy) ;;
  if negb legal then
    raise (ValueError ("Ordering Strategy [" ++ py_str strategy ++ "] should in "
                         ++ py_str (list_of_set legal_strategy)))
  else
    assign "ordering_args" (VDict [("strategy", strategy)]) ;;
    args <- read ordering_args ;;
    args <- lift (py_update args kwargs) ;;
    assign "ordering_args" args.

Definition shuffle : M unit :=
  set_ordering (Some (VStr "shuffle")) [].

Definition sort_by (field : value) (ascending : option value) : M unit :=
  let ascending := arg_or ascending VNone in
  ascending <-
    (if is_None ascending then
       n <- lift (py_len field) ;;
       let ascending := repeat (VBool true) n in
       if Nat.eqb (List.length ascending) 1 then ret (VBool true)
       else ret (VList ascending)
     else ret ascending) ;;
  set_ordering (Some (VStr "by")) [("field", field); ("ascending", ascending)].

Definition set_splitting (strategy : option value) (keywords : dict) : M unit :=
  '(strategy, kwargs) <- lift (bind_strategy strategy keywords) ;;
  let legal_strategy := ["none"; "by_ratio"; "by_value"; "loo"] in
  legal <- lift (set_contains legal_strategy strategy) ;;
  if negb legal then
    raise (ValueError ("Split Strategy [" ++ py_str strategy ++ "] should in "
                         ++ py_str (list_of_set legal_strategy)))
  else
    guard <-
      (if py_eq strategy (VStr "loo") then
         a <- (fun self => (getattr self "group_by", self)) ;;
         ret (attr_is_None a)
       else ret false) ;;
    if guard then raise (ValueError "Leave-One-Out request group firstly")
    else
      assign "split_args" (VDict [("strategy", strategy)]) ;;
      args <- read split_args ;;
      args <- lift (py_update args kwargs) ;;
      assign "split_args" args.

Definition leave_one_out : M unit :=
  set_splitting None [("strategy", VStr "loo")].

Definition split_by_ratio (ratios : value) : M unit :=
  if negb (isinstance_list ratios) then
    raise (ValueError ("ratios [" ++ py_str ratios ++ "] should be list"))
  else
    set_splitting None [("strategy", VStr "by_ratio"); ("ratios", ratios)].

Definition split_by_value (field values : value) (ascending : option value) : M unit :=
  let ascending := arg_or ascending (VBool true) in
  if negb (isinstance_str field) then
    raise (ValueError ("field [" ++ py_str field ++ "] should be str"))
  else
    let values := if negb (isinstance_list values) then VList [values] else values in
    values <-
      match values with
      | VList l => l' <- lift (list_sort (negb (py_truthy ascending)) l) ;; ret (VList l')
      | _ => raise AttributeError
      end ;;
    set_splitting None
      [("strategy", VStr "by_value"); ("values", values); ("ascending", ascending)].

Definition set_neg_sampling (strategy : option value) (keywords : dict) : M unit :=
  '(strategy, kwargs) <- lift (bind_strategy strategy keywords) ;;
  let legal_strategy := ["none"; "to"; "by"] in
  legal <- lift (set_contains legal_strategy strategy) ;;
  if negb legal then
    raise (ValueError ("Negative Sampling Strategy [" ++ py_str strategy
                         ++ "] should in " ++ py_str (list_of_set legal_strategy)))
  else
    assign "neg_sample_args" (VDict [("strategy", strategy)]) ;;
    args <- read neg_sample_args ;;
    args <- lift (py_update args kwargs) ;;
    assign "neg_sample_args" args.

Definition neg_sample_to (to : value) : M unit :=
  set_neg_sampling None [("strategy", VStr "to"); ("to", to)].

Definition full_sort : M unit :=
  neg_sample_to (VInt (-1)).

Definition neg_sample_by (by_ : value) : M unit :=
  set_neg_sampling None [("strategy", VStr "by"); ("by", by_)].

End Methods.

(** ** Vocabulary of the properties *)

Section Vocabulary.
Context `{Runtime}.

(** The three concerns that are set through a strategy name. *)
Inductive concern : Type := Ordering | Splitting | NegSampling.

Definition legal_strategies (c : concern) : list string :=
  match c with
  | Ordering => ["none"; "shuffle"; "by"]
  | Splitting => ["none"; "by_ratio"; "by_value"; "loo"]
  | NegSampling => ["none"; "to"; "by"]
  end.

Definition concern_name (c : concern) : string :=
  match c with
  | Ordering => "Ordering"
  | Splitting => "Split"
  | NegSampling => "Negative Sampling"
  end.

Definition spec_of (c : concern) (self : EvalSetting) : value :=
  match c with
  | Ordering => ordering_args self
  | Splitting => split_args self
  | NegSampling => neg_sample_args self
  end.

(** The attribute, and configuration key, that holds the spec. *)
Definition spec_key (c : concern) : string :=
  match c with
  | Ordering => "ordering_args"
  | Splitting => "split_args"
  | NegSampling => "neg_sample_args"
  end.

(** The instance with the spec of one concern replaced and nothing else. *)
Definition with_spec (c : concern) (spec : value) (self : EvalSetting) : EvalSetting :=
  match c with
  | Ordering =>
      mkEvalSetting (config self) (group_field self) spec (split_args self)
        (neg_sample_args self)
  | Splitting =>
      mkEvalSetting (config self) (group_field self) (ordering_args self) spec
        (neg_sample_args self)
  | NegSampling =>
      mkEvalSetting (config self) (group_field self) (ordering_args self)
        (split_args self) spec
  end.

Definition setter (c : concern) : option value -> dict -> M unit :=
  match c with
  | Ordering => set_ordering
  | Splitting => set_splitting
  | NegSampling => set_neg_sampling
  end.

(** [part] occurs in [whole]. *)
Definition contains (part whole : string) : Prop :=
  exists before after, whole = before ++ part ++ after.

Definition invalid_strategy_message (c : concern) (strategy : value) : string :=
  concern_name c ++ " Strategy [" ++ py_str strategy ++ "] should in "
    ++ py_str (list_of_set (legal_strategies c)).

Definition default_ascending (n : nat) : value :=
  if Nat.eqb n 1 then VBool true else VList (repeat (VBool true) n).

(** The float written [0.8]. *)
Definition float_0_8 : value := VFloat (3602879701896397 # 4503599627370496).

(** A spec as the setters leave it and as the data model has it: absent, or
    a dictionary that has a strategy. *)
Definition spec_well_formed (spec : value) : bool :=
  match spec with
  | VNone => true
  | VDict d => alist_mem "strategy" d
  | _ => false
  end.

(** The spec is absent or its strategy is ['none']. *)
Definition switched_off (spec : value) : Prop :=
  spec = VNone \/ py_getitem spec "strategy" = inr (VStr "none").

(** [line] is the summary line of a concern: the fixed [absent] text
    exactly when the concern is switched off, the spec after [label]
    otherwise. *)
Definition concern_line (label absent : string) (spec : value) (line : string) : Prop :=
  (switched_off spec -> line = tab ++ absent ++ newline) /\
  (~ switched_off spec -> line = tab ++ label ++ ": " ++ py_str spec ++ newline) /\
  (line = tab ++ absent ++ newline -> switched_off spec).

(** [a] may stand before [b] in a list sorted in the given direction:
    ascending, [b < a] is false; descending, [a < b] is false. *)
Definition in_order (ascending : bool) (a b : value) : Prop :=
  if ascending then py_lt b a = inr false else py_lt a b = inr false.

Definition all_numbers (l : list value) : Prop :=
  Forall (fun v => is_number v = true) l.

(** The argument [values] as the list that gets sorted. *)
Definition as_list (values : value) : list value :=
  match values with
  | VList l => l
  | v => [v]
  end.

(** A number, or a list of numbers. *)
Definition numbers (values : value) : Prop :=
  match values with
  | VList l => all_numbers l
  | v => is_number v = true
  end.

(** The strategy of a spec, when it is there, is a legal name of the
    concern. *)
Definition spec_legal (c : concern) (spec : value) : bool :=
  match spec with
  | VNone => true
  | VDict d =>
      match alist_get "strategy" d with
      | Some (VStr s) => existsb (String.eqb s) (legal_strategies c)
      | _ => false
      end
  | _ => false
  end.

Definition all_specs_legal (self : EvalSetting) : Prop :=
  forall c, spec_legal c (spec_of c self) = true.

(** The calls a client makes on an instance. *)
Inductive call : Type :=
| Call_group_by (field : option value)
| Call_group_by_user
| Call_set_ordering (strategy : option value) (keywords : dict)
| Call_shuffle
| Call_sort_by (field : value) (ascending : option value)
| Call_set_splitting (strategy : option value) (keywords : dict)
| Call_leave_one_out
| Call_split_by_ratio (ratios : value)
| Call_split_by_value (field values : value) (ascending : option value)
| Call_set_neg_sampling (strategy : option value) (keywords : dict)
| Call_neg_sample_to (to : value)
| Call_full_sort
| Call_neg_sample_by (by_ : value).

Definition run (c : call) : M unit :=
  match c with
  | Call_group_by field => group_by field
  | Call_group_by_user => group_by_user
  | Call_set_ordering strategy keywords => set_ordering strategy keywords
  | Call_shuffle => shuffle
  | Call_sort_by field ascending => sort_by field ascending
  | Call_set_splitting strategy keywords => set_splitting strategy keywords
  | Call_leave_one_out => leave_one_out
  | Call_split_by_ratio ratios => split_by_ratio ratios
  | Call_split_by_value field values ascending => split_by_value field values ascending
  | Call_set_neg_sampling strategy keywords => set_neg_sampling strategy keywords
  | Call_neg_sample_to to => neg_sample_to to
  | Call_full_sort => full_sort
  | Call_neg_sample_by by_ => neg_sample_by by_
  end.

(** A client's calls one after the other; a call that raises leaves the
    instance to the next one as it was when the exception left it. *)
Fixpoint run_all (calls : list call) (self : EvalSetting) : EvalSetting :=
  match calls with
  | [] => self
  | c :: calls' => run_all calls' (snd (run c self))
  end.

(** The attribute a call assigns: the grouping field ([None] here) or the
    spec of a concern. *)
Definition target_of (c : call) : option concern :=
  match c with
  | Call_group_by _ | Call_group_by_user => None
  | Call_set_ordering _ _ | Call_shuffle | Call_sort_by _ _ => Some Ordering
  | Call_set_splitting _ _ | Call_leave_one_out | Call_split_by_ratio _
  | Call_split_by_value _ _ _ => Some Splitting
  | Call_set_neg_sampling _ _ | Call_neg_sample_to _ | Call_full_sort
  | Call_neg_sample_by _ => Some NegSampling
  end.

Definition attr_of (target : option concern) (self : EvalSetting) : value :=
  match target with
  | None => group_field self
  | Some c => spec_of c self
  end.

(** The instance with one attribute replaced and nothing else. *)
Definition put_attr (target : option concern) (v : value) (self : EvalSetting)
  : EvalSetting :=
  match target with
  | None =>
      mkEvalSetting (config self) v (ordering_args self) (split_args self)
        (neg_sample_args self)
  | Some c => with_spec c v self
  end.

(** The call gets as far as sorting, in place, a list that the client
    handed over. *)
Definition sorts_in_place (c : call) : bool :=
  match c with
  | Call_split_by_value field (VList _) _ => isinstance_str field
  | _ => false
  end.

(** The calls that take no strategy from the client and check no argument. *)
Definition convenience (c : call) : bool :=
  match c with
  | Call_group_by _ | Call_group_by_user | Call_shuffle | Call_leave_one_out
  | Call_neg_sample_to _ | Call_full_sort | Call_neg_sample_by _ => true
  | _ => false
  end.

End Vocabulary.

(** An instance grouped by user and ordered by time. *)
Definition by_time : EvalSetting :=
  mkEvalSetting (fun _ => VNone) (VStr "user_id")
    (VDict [("strategy", VStr "by"); ("field", VStr "timestamp");
            ("ascending", VBool true)])
    VNone VNone.

(** ** Properties *)

(** *** Strings *)

Lemma string_app_assoc (a b c : string) : (a ++ b) ++ c = a ++ b ++ c.
Proof. induction a as [| ch a IH]; simpl; [reflexivity | now rewrite IH]. Qed.

Lemma contains_here (part after : string) : contains part (part ++ after).
Proof. exists "", after. reflexivity. Qed.

Lemma string_app_nil_r (a : string) : a ++ "" = a.
Proof. induction a as [| ch a IH]; simpl; [reflexivity | now rewrite IH]. Qed.

Lemma contains_refl (part : string) : contains part part.
Proof. exists "", "". simpl. now rewrite string_app_nil_r. Qed.

Lemma contains_after (before part whole : string) :
  contains part whole -> contains part (before ++ whole).
Proof.
  intros (b & a & ->). exists (before ++ b), a.
  now rewrite string_app_assoc.
Qed.

(** *** Dictionaries *)

Lemma alist_mem_false {A} (k : string) (d : alist A) :
  alist_mem k d = false <-> ~ In k (alist_keys d).
Proof.
  unfold alist_mem. induction d as [| [k' v] d IH]; simpl.
  - tauto.
  - rewrite orb_false_iff, IH. split.
    + intros [Hk Hd] [Heq | Hin]; [| tauto].
      subst k'. now rewrite String.eqb_refl in Hk.
    + intros Hn. split; [| tauto].
      apply String.eqb_neq. intros ->. tauto.
Qed.

Lemma alist_get_None {A} (k : string) (d : alist A) :
  alist_get k d = None <-> ~ In k (alist_keys d).
Proof.
  induction d as [| [k' v] d IH]; simpl.
  - tauto.
  - destruct (String.eqb_spec k k') as [-> | Hne].
    + split; [discriminate | tauto].
    + rewrite IH. split; [intros Hn [Heq | Hin]; [congruence | tauto] | tauto].
Qed.

Lemma alist_keys_remove {A} (k : string) (d : alist A) :
  ~ In k (alist_keys (alist_remove k d)).
Proof.
  unfold alist_keys, alist_remove. rewrite in_map_iff.
  intros ([k' v] & Hk & Hin). simpl in Hk. subst k'.
  apply filter_In in Hin as [_ Hb]. simpl in Hb.
  now rewrite String.eqb_refl in Hb.
Qed.

Lemma alist_set_fresh {A} (k : string) (v : A) (d : alist A) :
  ~ In k (alist_keys d) -> alist_set k v d = (d ++ [(k, v)])%list.
Proof.
  induction d as [| [k' v'] d IH]; simpl; intros Hn.
  - reflexivity.
  - destruct (String.eqb_spec k k') as [-> | Hne]; [tauto |].
    rewrite IH; [reflexivity | tauto].
Qed.

(** Updating with keys that are new and distinct appends them in order. *)
Lemma alist_update_fresh {A} (other d : alist A) :
  NoDup (alist_keys other) ->
  (forall k, In k (alist_keys other) -> ~ In k (alist_keys d)) ->
  alist_update d other = (d ++ other)%list.
Proof.
  unfold alist_update. revert d.
  induction other as [| [k v] other IH]; simpl; intros d Hnd Hfresh.
  - now rewrite app_nil_r.
  - inversion Hnd as [| ? ? Hk Hnd']; subst.
    rewrite alist_set_fresh by (apply Hfresh; now left).
    rewrite IH; [now rewrite <- app_assoc | assumption |].
    intros k' Hin. unfold alist_keys. rewrite map_app, in_app_iff. simpl.
    intros [Hd | [-> | []]]; [| tauto].
    apply (Hfresh k'); [now right | exact Hd].
Qed.

Lemma alist_keys_filter_In {A} (f : string * A -> bool) (d : alist A) (k : string) :
  In k (alist_keys (filter f d)) -> In k (alist_keys d).
Proof.
  unfold alist_keys. rewrite !in_map_iff.
  intros (kv & Hk & Hin). apply filter_In in Hin as [Hin _]. now exists kv.
Qed.

Lemma alist_keys_filter_NoDup {A} (f : string * A -> bool) (d : alist A) :
  NoDup (alist_keys d) -> NoDup (alist_keys (filter f d)).
Proof.
  induction d as [| kv d IH]; intros Hnd; [constructor |].
  inversion Hnd as [| ? ? Hk Hnd']; subst.
  cbn [filter]. destruct (f kv); [| now apply IH].
  cbn [alist_keys map]. constructor; [| now apply IH].
  intros Hin. apply Hk. now apply alist_keys_filter_In in Hin.
Qed.

(** What a successful binding of [strategy] leaves in [kwargs]. *)
Lemma bind_strategy_kwargs (positional : option value) (keywords : dict)
    (strategy : value) (kwargs : dict) :
  bind_strategy positional keywords = inr (strategy, kwargs) ->
  ~ In "strategy" (alist_keys kwargs) /\ ~ In "self" (alist_keys kwargs) /\
  (NoDup (alist_keys keywords) -> NoDup (alist_keys kwargs)).
Proof.
  unfold bind_strategy.
  destruct (alist_mem "self" keywords) eqn:Hself; [discriminate |].
  apply alist_mem_false in Hself.
  destruct positional as [p |]; destruct (alist_get "strategy" keywords) eqn:Hs;
    intros Heq; inversion Heq; subst; clear Heq.
  - apply alist_get_None in Hs. tauto.
  - split; [apply alist_keys_remove |]. split.
    + intros Hin. apply Hself. now apply alist_keys_filter_In in Hin.
    + apply alist_keys_filter_NoDup.
  - apply alist_get_None in Hs. tauto.
Qed.

Lemma is_None_true (v : value) : is_None v = true <-> v = VNone.
Proof. destruct v; simpl; split; congruence. Qed.

Lemma py_eq_str (v : value) (t : string) : py_eq v (VStr t) = true <-> v = VStr t.
Proof.
  destruct v as [| b | z | q | s | l | d | neg |]; simpl;
    try (split; [discriminate | congruence]).
  rewrite String.eqb_eq. split; congruence.
Qed.

Section Properties.
Context `{Runtime}.

(** *** How a setter runs *)

(** The guard of [set_splitting] reads the method [group_by], which is
    never [None]. *)
Lemma loo_guard_never_fires (self : EvalSetting) :
  getattr self "group_by" = inr (BoundMethod "group_by").
Proof. reflexivity. Qed.

(** Once [strategy] is bound, a setter either rejects it, leaving the
    instance as it was, or stores the one-entry dictionary updated with the
    keywords. *)
Lemma setter_run (c : concern) (positional : option value) (keywords : dict)
    (strategy : value) (kwargs : dict) (self : EvalSetting) :
  bind_strategy positional keywords = inr (strategy, kwargs) ->
  setter c positional keywords self =
    match set_contains (legal_strategies c) strategy with
    | inl e => (inl e, self)
    | inr false => (inl (ValueError (invalid_strategy_message c strategy)), self)
    | inr true =>
        (inr tt, with_spec c (VDict (alist_update [("strategy", strategy)] kwargs)) self)
    end.
Proof.
  intros Hbind.
  destruct c; unfold setter, set_ordering, set_splitting, set_neg_sampling,
    bind, lift, legal_strategies; rewrite Hbind;
    match goal with |- context [set_contains ?l ?s] =>
      destruct (set_contains l s) as [e | [|]]
    end; try reflexivity.
  destruct (py_eq strategy (VStr "loo")); reflexivity.
Qed.

Lemma setter_bind_error (c : concern) (positional : option value) (keywords : dict)
    (e : exn) (self : EvalSetting) :
  bind_strategy positional keywords = inl e ->
  setter c positional keywords self = (inl e, self).
Proof.
  intros Hbind.
  destruct c; unfold setter, set_ordering, set_splitting, set_neg_sampling,
    bind, lift; rewrite Hbind; reflexivity.
Qed.

Lemma set_contains_str (members : list string) (s : string) :
  set_contains members (VStr s) = inr (if in_dec string_dec s members then true else false).
Proof.
  unfold set_contains. f_equal.
  destruct (in_dec string_dec s members) as [Hin | Hn].
  - apply existsb_exists. exists s. split; [exact Hin | apply String.eqb_refl].
  - destruct (existsb (String.eqb s) members) eqn:He; [| reflexivity].
    apply existsb_exists in He as (t & Hin & Heq).
    apply String.eqb_eq in Heq. now subst t.
Qed.

Lemma legal_strategies_NoDup (c : concern) : NoDup (legal_strategies c).
Proof.
  destruct c; simpl; repeat constructor; simpl; intuition discriminate.
Qed.

(** *** Rejected strategies *)

(** C1. Whatever the instance and the concern, a call of the concern's setter
    that binds [strategy] to a string outside the concern's legal set raises
    [ValueError]; the message contains the offending string and the printed
    list of the legal names (in the order the set enumerates them), and the
    instance after the call is the instance before it, the concern's spec and
    every other field included. *)
Theorem invalid_strategy_rejected (c : concern) (self : EvalSetting)
    (positional : option value) (keywords kwargs : dict) (s : string) :
  bind_strategy positional keywords = inr (VStr s, kwargs) ->
  ~ In s (legal_strategies c) ->
  exists msg order,
    setter c positional keywords self = (inl (ValueError msg), self) /\
    contains s msg /\
    Permutation order (legal_strategies c) /\
    contains (repr (VList (map VStr order))) msg.
Proof.
  intros Hbind Hillegal.
  exists (invalid_strategy_message c (VStr s)), (set_iter (legal_strategies c)).
  split; [| split; [| split]].
  - rewrite (setter_run c _ _ _ _ self Hbind), set_contains_str.
    destruct (in_dec string_dec s (legal_strategies c)); [contradiction | reflexivity].
  - unfold invalid_strategy_message. cbn [py_str].
    rewrite <- string_app_assoc. apply contains_after, contains_here.
  - apply set_iter_perm, legal_strategies_NoDup.
  - unfold invalid_strategy_message, list_of_set. cbn [py_str].
    do 4 apply contains_after. apply contains_refl.
Qed.

(** *** Accepted strategies *)

(** C5. Whatever the instance, a call of a concern's setter that binds
    [strategy] to a legal name [s] and leaves the keywords [kwargs] succeeds
    and stores, as that concern's spec, the dictionary made of [strategy: s]
    followed by [kwargs], changing nothing else.  A key is found in the new
    spec exactly when it is [strategy] or a keyword of this call: nothing of
    the spec stored before is kept. *)
Theorem setter_replaces_spec (c : concern) (self : EvalSetting)
    (positional : option value) (keywords kwargs : dict) (s : string) :
  bind_strategy positional keywords = inr (VStr s, kwargs) ->
  NoDup (alist_keys kwargs) ->
  In s (legal_strategies c) ->
  setter c positional keywords self =
    (inr tt, with_spec c (VDict (("strategy", VStr s) :: kwargs)) self) /\
  forall k,
    py_getitem (spec_of c (snd (setter c positional keywords self))) k =
      if String.eqb k "strategy" then inr (VStr s)
      else match alist_get k kwargs with
           | Some v => inr v
           | None => inl (KeyError k)
           end.
Proof.
  intros Hbind Hnd Hlegal.
  assert (Hrun : setter c positional keywords self =
            (inr tt, with_spec c (VDict (("strategy", VStr s) :: kwargs)) self)).
  { rewrite (setter_run c _ _ _ _ self Hbind), set_contains_str.
    destruct (in_dec string_dec s (legal_strategies c)); [| contradiction].
    rewrite alist_update_fresh; [reflexivity | exact Hnd |].
    intros k Hin [<- | []].
    destruct (bind_strategy_kwargs _ _ _ _ Hbind) as [Hfresh _].
    exact (Hfresh Hin). }
  split; [exact Hrun |].
  intros k. rewrite Hrun. cbn [snd].
  replace (spec_of c (with_spec c (VDict (("strategy", VStr s) :: kwargs)) self))
    with (VDict (("strategy", VStr s) :: kwargs)) by (destruct c; reflexivity).
  cbn [py_getitem alist_get].
  destruct (String.eqb k "strategy"); reflexivity.
Qed.

(** *** Leave-one-out *)

(** C2. [leave_one_out] (and [set_splitting] with ['loo'], which it calls)
    never raises for want of a grouping field: on every instance it
    succeeds and stores [strategy: 'loo'], also when [group_field] is
    [None], as on an instance built from a configuration that holds
    nothing.  The test before the raise reads the bound method [group_by],
    not the attribute [group_field], and a bound method is never [None]. *)
Theorem leave_one_out_ignores_grouping (self : EvalSetting) :
  leave_one_out self =
    (inr tt, with_spec Splitting (VDict [("strategy", VStr "loo")]) self) /\
  set_splitting (Some (VStr "loo")) [] self = leave_one_out self /\
  leave_one_out (__init__ (fun _ => VNone)) =
    (inr tt,
     mkEvalSetting (fun _ => VNone) VNone VNone (VDict [("strategy", VStr "loo")]) VNone).
Proof. repeat split; reflexivity. Qed.

(** *** Ordering by fields *)

(** [sort_by] without [ascending], on any field that has a length. *)
Lemma sort_by_default (field : value) (n : nat) (self : EvalSetting) :
  py_len field = inr n ->
  sort_by field None self =
    (inr tt,
     with_spec Ordering
       (VDict [("strategy", VStr "by"); ("field", field);
               ("ascending", default_ascending n)]) self).
Proof.
  intros Hlen. unfold sort_by, default_ascending. cbn [arg_or is_None].
  unfold bind at 1. unfold bind at 1. unfold lift at 1. rewrite Hlen.
  rewrite repeat_length.
  destruct (Nat.eqb n 1); reflexivity.
Qed.

(** C3. For every non-empty list [fields], [sort_by(fields)] without
    [ascending] succeeds and stores the ordering spec [strategy: 'by',
    field: fields, ascending: a], where [a] is the list of [len(fields)]
    times [True] when there are several fields and the plain [True] when
    there is one; nothing else changes. *)
Theorem sort_by_list_default_ascending (fields : list value) (self : EvalSetting) :
  fields <> [] ->
  exists a,
    sort_by (VList fields) None self =
      (inr tt,
       with_spec Ordering
         (VDict [("strategy", VStr "by"); ("field", VList fields); ("ascending", a)])
         self) /\
    (1 < List.length fields -> a = VList (repeat (VBool true) (List.length fields)))%nat /\
    (List.length fields = 1%nat -> a = VBool true).
Proof.
  intros Hne. exists (default_ascending (List.length fields)).
  split; [now apply sort_by_default |].
  unfold default_ascending. split; intros Hlen.
  - destruct (Nat.eqb_spec (List.length fields) 1); [lia | reflexivity].
  - now rewrite Hlen.
Qed.

(** C10. A plain string given as [field] is measured in characters:
    [sort_by(s)] without [ascending] succeeds and stores [field: s] with
    [ascending] the list of [len(s)] times [True] when [s] has several
    characters, and the plain [True] when, and only when, it has exactly
    one; so ['timestamp'] gets a list of nine [True]. *)
Theorem sort_by_string_default_ascending (s : string) (self : EvalSetting) :
  (exists a,
     sort_by (VStr s) None self =
       (inr tt,
        with_spec Ordering
          (VDict [("strategy", VStr "by"); ("field", VStr s); ("ascending", a)])
          self) /\
     (1 < String.length s -> a = VList (repeat (VBool true) (String.length s)))%nat /\
     (a = VBool true <-> String.length s = 1%nat)) /\
  sort_by (VStr "timestamp") None self =
    (inr tt,
     with_spec Ordering
       (VDict [("strategy", VStr "by"); ("field", VStr "timestamp");
               ("ascending", VList (repeat (VBool true) 9))]) self).
Proof.
  split; [| exact (sort_by_default (VStr "timestamp") 9 self eq_refl)].
  exists (default_ascending (String.length s)).
  split; [now apply sort_by_default |].
  unfold default_ascending.
  destruct (Nat.eqb_spec (String.length s) 1) as [-> | Hne].
  - split; [lia | tauto].
  - split; [reflexivity |]. split; [discriminate | contradiction].
Qed.

(** *** Negative sampling *)

(** C7. On every instance [full_sort()] and [neg_sample_to(-1)] end in the
    same result and the same instance: the negative-sampling spec is
    [strategy: 'to', to: -1] and nothing else has changed. *)
Theorem full_sort_is_neg_sample_to_minus_one (self : EvalSetting) :
  full_sort self = neg_sample_to (VInt (-1)) self /\
  neg_sample_to (VInt (-1)) self =
    (inr tt,
     with_spec NegSampling (VDict [("strategy", VStr "to"); ("to", VInt (-1))]) self).
Proof. split; reflexivity. Qed.

(** *** Splitting by ratio *)

(** C9. [split_by_ratio(ratios)] raises [ValueError] (the message names the
    argument and says it should be a list) and leaves the instance as it
    was whenever [ratios] is not a list, as for the float [0.8]; for every
    list it succeeds and stores [strategy: 'by_ratio', ratios: ratios],
    whatever the elements are and add up to. *)
Theorem split_by_ratio_requires_list (ratios : value) (self : EvalSetting) :
  split_by_ratio ratios self =
    match ratios with
    | VList l =>
        (inr tt,
         with_spec Splitting
           (VDict [("strategy", VStr "by_ratio"); ("ratios", VList l)]) self)
    | _ => (inl (ValueError ("ratios [" ++ py_str ratios ++ "] should be list")), self)
    end /\
  split_by_ratio float_0_8 self =
    (inl (ValueError ("ratios [" ++ repr float_0_8 ++ "] should be list")), self) /\
  split_by_ratio (VList [VFloat (1 # 2); VFloat (1 # 4)]) self =
    (inr tt,
     with_spec Splitting
       (VDict [("strategy", VStr "by_ratio");
               ("ratios", VList [VFloat (1 # 2); VFloat (1 # 4)])]) self).
Proof.
  split; [| split; reflexivity].
  destruct ratios; reflexivity.
Qed.

(** *** Construction *)

Lemma init_attributes (cfg : Config) :
  config (__init__ cfg) = cfg /\
  group_field (__init__ cfg) = cfg "group_field" /\
  ordering_args (__init__ cfg) = cfg "ordering_args" /\
  split_args (__init__ cfg) = cfg "split_args" /\
  neg_sample_args (__init__ cfg) = cfg "neg_sample_args".
Proof.
  unfold __init__. cbn [fold_left].
  destruct (is_None (cfg "group_field")) eqn:E1;
    destruct (is_None (cfg "ordering_args")) eqn:E2;
    destruct (is_None (cfg "split_args")) eqn:E3;
    destruct (is_None (cfg "neg_sample_args")) eqn:E4;
    try apply is_None_true in E1; try apply is_None_true in E2;
    try apply is_None_true in E3; try apply is_None_true in E4;
    cbn [negb]; repeat split; try reflexivity; symmetry; assumption.
Qed.

(** C6. Whatever the configuration source answers, the constructor returns
    an instance that keeps the source and whose four attributes are what
    the source answers under their names: the answer itself when it is not
    [None], and the initial [None] otherwise; nothing is checked.  A source
    that only knows [group_field = 'user_id'] gives an instance with that
    grouping and no ordering, splitting or negative-sampling spec. *)
Theorem init_copies_config (cfg : Config) :
  config (__init__ cfg) = cfg /\
  group_field (__init__ cfg) = cfg "group_field" /\
  ordering_args (__init__ cfg) = cfg "ordering_args" /\
  split_args (__init__ cfg) = cfg "split_args" /\
  neg_sample_args (__init__ cfg) = cfg "neg_sample_args" /\
  let only_group := fun k => if String.eqb k "group_field" then VStr "user_id" else VNone in
  __init__ only_group = mkEvalSetting only_group (VStr "user_id") VNone VNone VNone.
Proof.
  destruct (init_attributes cfg) as (Hc & Hg & Ho & Hs & Hn).
  repeat split; try assumption.
Qed.

(** *** The summary *)

Lemma strategy_line_spec (label absent : string) (spec : value) :
  spec_well_formed spec = true ->
  (forall x y, label ++ x <> absent ++ y) ->
  exists line,
    strategy_line label absent spec = inr line /\ concern_line label absent spec line.
Proof.
  intros Hwf Hdiff. unfold strategy_line, concern_line, switched_off.
  destruct spec as [| b | z | q | s | l | d | neg |]; try discriminate Hwf.
  - eexists. split; [reflexivity |]. cbn [is_None negb]. tauto.
  - cbn [is_None negb py_getitem]. cbn [spec_well_formed] in Hwf.
    destruct (alist_get "strategy" d) as [s |] eqn:Hget.
    2:{ apply alist_get_None in Hget. apply alist_mem_false in Hget. congruence. }
    destruct (py_eq s (VStr "none")) eqn:Heq; cbn [negb].
    + apply py_eq_str in Heq. subst s.
      eexists. split; [reflexivity |]. split; [reflexivity |]. split; [| tauto].
      intros Hn. exfalso. apply Hn. now right.
    + assert (Hoff : ~ (VDict d = VNone \/ inr s = inr (VStr "none") :> result value)).
      { intros [Hd | Hs]; [discriminate |]. inversion Hs; subst.
        now rewrite (proj2 (py_eq_str _ _) eq_refl) in Heq. }
      eexists. split; [reflexivity |]. split; [tauto |]. split; [reflexivity |].
      intros Hline. exfalso. unfold tab in Hline. cbn [String.append] in Hline.
      inversion Hline as [Hrest]. exact (Hdiff _ _ Hrest).
Qed.

(** The summary of an instance whose specs are well formed. *)
Lemma summary_decomposition (self : EvalSetting) :
  spec_well_formed (ordering_args self) = true ->
  spec_well_formed (split_args self) = true ->
  spec_well_formed (neg_sample_args self) = true ->
  exists grouping ordering splitting sampling,
    __str__ self =
      inr ("Evaluation Setting:" ++ newline
             ++ grouping ++ ordering ++ splitting ++ sampling) /\
    (group_field self = VNone -> grouping = tab ++ "No Grouping" ++ newline) /\
    (group_field self <> VNone ->
     grouping = tab ++ "Group by " ++ py_str (group_field self) ++ newline) /\
    (grouping = tab ++ "No Grouping" ++ newline -> group_field self = VNone) /\
    concern_line "Ordering" "No Ordering" (ordering_args self) ordering /\
    concern_line "Splitting" "No Splitting" (split_args self) splitting /\
    concern_line "Negative Sampling" "No Negative Sampling"
      (neg_sample_args self) sampling.
Proof.
  intros Ho Hs Hn.
  destruct (strategy_line_spec "Ordering" "No Ordering" _ Ho) as (lo & Elo & Hlo);
    [intros x y E; discriminate E |].
  destruct (strategy_line_spec "Splitting" "No Splitting" _ Hs) as (ls & Els & Hls);
    [intros x y E; discriminate E |].
  destruct (strategy_line_spec "Negative Sampling" "No Negative Sampling" _ Hn)
    as (ln & Eln & Hln); [intros x y E; discriminate E |].
  exists (if negb (is_None (group_field self))
          then tab ++ "Group by " ++ py_str (group_field self) ++ newline
          else tab ++ "No Grouping" ++ newline), lo, ls, ln.
  split.
  - unfold __str__. rewrite Elo, Els, Eln. f_equal.
    now rewrite !string_app_assoc.
  - repeat split; try apply Hlo; try apply Hls; try apply Hln.
    + intros ->. reflexivity.
    + intros Hg. destruct (is_None (group_field self)) eqn:E; [| reflexivity].
      now apply is_None_true in E.
    + destruct (is_None (group_field self)) eqn:E; [now apply is_None_true in E |].
      intros Hline. discriminate Hline.
Qed.

(** C8. When each of the three specs is absent or a dictionary that has a
    strategy, the summary is returned and is the heading followed by four
    lines, for grouping, ordering, splitting and negative sampling in this
    order; the grouping line is the "No Grouping" line exactly when the
    grouping field is absent, and the line of each other concern is its
    "No ..." line exactly when its spec is absent or has strategy ['none'],
    and shows the spec otherwise.  The summary of an instance built from a
    configuration that holds nothing is the heading and the four "No ..."
    lines. *)
Theorem summary_lines (self : EvalSetting) :
  spec_well_formed (ordering_args self) = true ->
  spec_well_formed (split_args self) = true ->
  spec_well_formed (neg_sample_args self) = true ->
  (exists grouping ordering splitting sampling,
     __str__ self =
       inr ("Evaluation Setting:" ++ newline
              ++ grouping ++ ordering ++ splitting ++ sampling) /\
     (group_field self = VNone -> grouping = tab ++ "No Grouping" ++ newline) /\
     (group_field self <> VNone ->
      grouping = tab ++ "Group by " ++ py_str (group_field self) ++ newline) /\
     (grouping = tab ++ "No Grouping" ++ newline -> group_field self = VNone) /\
     concern_line "Ordering" "No Ordering" (ordering_args self) ordering /\
     concern_line "Splitting" "No Splitting" (split_args self) splitting /\
     concern_line "Negative Sampling" "No Negative Sampling"
       (neg_sample_args self) sampling) /\
  __str__ (__init__ (fun _ => VNone)) =
    inr ("Evaluation Setting:" ++ newline
           ++ tab ++ "No Grouping" ++ newline
           ++ tab ++ "No Ordering" ++ newline
           ++ tab ++ "No Splitting" ++ newline
           ++ tab ++ "No Negative Sampling" ++ newline).
Proof.
  intros Ho Hs Hn. split; [| reflexivity].
  now apply summary_decomposition.
Qed.

(** *** Splitting by value *)

Lemma is_number_num_of (v : value) :
  is_number v = true -> exists x, num_of v = Some x.
Proof.
  unfold is_number. destruct (num_of v) as [x |]; [now exists x | discriminate].
Qed.

Lemma py_lt_numbers (a b : value) (x y : extended) :
  num_of a = Some x -> num_of b = Some y -> py_lt a b = inr (ext_ltb x y).
Proof.
  destruct a, b; cbn [num_of]; intros Ha Hb;
    try discriminate; inversion Ha; inversion Hb; reflexivity.
Qed.

Lemma Qltb_true (x y : Q) : Qltb x y = true <-> (x < y)%Q.
Proof.
  unfold Qltb. rewrite Qlt_alt. destruct (x ?= y)%Q; split; congruence.
Qed.

Lemma Qltb_false (x y : Q) : Qltb x y = false <-> (y <= x)%Q.
Proof.
  rewrite <- not_true_iff_false, Qltb_true. split.
  - apply Qnot_lt_le.
  - apply Qle_not_lt.
Qed.

Lemma ext_ltb_asym (x y : extended) : ext_ltb x y = true -> ext_ltb y x = false.
Proof.
  destruct x, y; cbn [ext_ltb]; try congruence.
  rewrite Qltb_true, Qltb_false. apply Qlt_le_weak.
Qed.

(** "Not greater than" is transitive. *)
Lemma ext_ltb_false_trans (x y z : extended) :
  ext_ltb y x = false -> ext_ltb z y = false -> ext_ltb z x = false.
Proof.
  destruct x, y, z; cbn [ext_ltb]; try congruence.
  rewrite !Qltb_false. apply Qle_trans.
Qed.

Lemma in_order_numbers (a b : value) (x y : extended) :
  num_of a = Some x -> num_of b = Some y ->
  in_order true a b <-> ext_ltb y x = false.
Proof.
  intros Ha Hb. unfold in_order. rewrite (py_lt_numbers b a y x Hb Ha).
  split; congruence.
Qed.

Lemma in_order_trans (a b c : value) :
  is_number a = true -> is_number b = true -> is_number c = true ->
  in_order true a b -> in_order true b c -> in_order true a c.
Proof.
  intros Ha Hb Hc.
  apply is_number_num_of in Ha as [x Hx].
  apply is_number_num_of in Hb as [y Hy].
  apply is_number_num_of in Hc as [z Hz].
  rewrite (in_order_numbers a b x y), (in_order_numbers b c y z),
    (in_order_numbers a c x z) by assumption.
  apply ext_ltb_false_trans.
Qed.

(** Inserting a number in a list of numbers: no comparison raises, the
    result has the same elements, and a sorted list stays sorted. *)
Lemma insert_numbers (x : value) (l : list value) :
  is_number x = true -> all_numbers l ->
  exists r,
    insert x l = inr r /\ Permutation (x :: l) r /\ all_numbers r /\
    (StronglySorted (in_order true) l -> StronglySorted (in_order true) r).
Proof.
  intros Hx Hl. induction Hl as [| y l Hy Hl IH]; cbn [insert].
  - exists [x]. repeat split; auto; repeat constructor; assumption.
  - destruct (is_number_num_of x Hx) as [qx Hqx].
    destruct (is_number_num_of y Hy) as [qy Hqy].
    rewrite (py_lt_numbers y x qy qx Hqy Hqx).
    destruct (ext_ltb qy qx) eqn:Hlt.
    + destruct IH as (r & -> & Hperm & Hnum & Hsorted).
      exists (y :: r). split; [reflexivity |]. split; [| split].
      * rewrite perm_swap. now constructor.
      * now constructor.
      * intros Hs. apply StronglySorted_inv in Hs as [Hs Hall].
        constructor; [now apply Hsorted |].
        apply (Permutation_Forall Hperm). constructor; [| exact Hall].
        apply (in_order_numbers y x qy qx Hqy Hqx).
        now apply ext_ltb_asym.
    + exists (x :: y :: l). split; [reflexivity |]. split; [reflexivity |].
      split; [repeat constructor; assumption |].
      intros Hs. constructor; [exact Hs |].
      assert (Hxy : in_order true x y).
      { now apply (in_order_numbers x y qx qy Hqx Hqy). }
      constructor; [exact Hxy |].
      apply StronglySorted_inv in Hs as [_ Hall].
      unfold all_numbers in Hl. rewrite Forall_forall in *.
      intros z Hz. apply (in_order_trans x y z); auto.
Qed.

Lemma sort_asc_numbers (l : list value) :
  all_numbers l ->
  exists s,
    sort_asc l = inr s /\ Permutation l s /\ all_numbers s /\
    StronglySorted (in_order true) s.
Proof.
  intros Hl. induction Hl as [| x l Hx Hl IH]; cbn [sort_asc].
  - exists []. repeat split; constructor.
  - destruct IH as (s & -> & Hperm & Hnum & Hsorted).
    destruct (insert_numbers x s Hx Hnum) as (r & Hr & Hperm' & Hnum' & Hsorted').
    exists r. split; [exact Hr |]. split; [| split; auto].
    rewrite <- Hperm'. now constructor.
Qed.

Lemma StronglySorted_snoc {A} (R : A -> A -> Prop) (l : list A) (a : A) :
  StronglySorted R l -> Forall (fun x => R x a) l -> StronglySorted R (l ++ [a])%list.
Proof.
  induction 1 as [| x l Hs IH Hall]; intros Ha; simpl.
  - repeat constructor.
  - inversion Ha; subst. constructor; [now apply IH |].
    apply Forall_app. split; [exact Hall | now repeat constructor].
Qed.

Lemma StronglySorted_rev {A} (R : A -> A -> Prop) (l : list A) :
  StronglySorted R l -> StronglySorted (fun a b => R b a) (rev l).
Proof.
  induction 1 as [| x l Hs IH Hall]; simpl; [constructor |].
  apply StronglySorted_snoc; [exact IH |].
  now apply Forall_rev.
Qed.

(** The insertion sort keeps the elements and leaves a single ascending
    run as it is, whatever the values. *)
Lemma insert_perm (x : value) (l r : list value) :
  insert x l = inr r -> Permutation (x :: l) r.
Proof.
  revert r. induction l as [| y l IH]; cbn [insert]; intros r Hr.
  - inversion Hr. reflexivity.
  - destruct (py_lt y x) as [e | [|]]; [discriminate | |].
    + destruct (insert x l) as [e | r']; [discriminate |].
      inversion Hr. rewrite perm_swap. constructor. now apply IH.
    + inversion Hr. reflexivity.
Qed.

Lemma sort_asc_perm (l s : list value) : sort_asc l = inr s -> Permutation l s.
Proof.
  revert s. induction l as [| x l IH]; cbn [sort_asc]; intros s Hs.
  - inversion Hs. constructor.
  - destruct (sort_asc l) as [e | s']; [discriminate |].
    rewrite <- (insert_perm x s' s Hs). constructor. now apply IH.
Qed.

Lemma sort_asc_run (l : list value) :
  Sorted (fun a b => py_lt b a = inr false) l -> sort_asc l = inr l.
Proof.
  induction 1 as [| x l Hs IH Hhd]; cbn [sort_asc]; [reflexivity |].
  rewrite IH. destruct Hhd as [| y l Hxy]; cbn [insert]; [reflexivity |].
  now rewrite Hxy.
Qed.

Lemma number_has_no_nan (v : value) : is_number v = true -> has_nan v = false.
Proof. destruct v; cbn; congruence. Qed.

Lemma builtin_sort_numbers (l : list value) :
  all_numbers l -> builtin_sort l = sort_asc l.
Proof.
  intros Hl. unfold builtin_sort.
  assert (Hnan : existsb has_nan l = false).
  { induction Hl as [| x l Hx Hl IH]; cbn [existsb]; [reflexivity |].
    now rewrite (number_has_no_nan x Hx), IH. }
  now rewrite Hnan.
Qed.

(** The interpreter's sort leaves a single ascending run as it is. *)
Lemma builtin_sort_run (l : list value) :
  Sorted (in_order true) l -> builtin_sort l = inr l.
Proof.
  intros Hs. unfold builtin_sort. destruct (existsb has_nan l).
  - now apply nan_sort_run.
  - now apply sort_asc_run.
Qed.

(** [list.sort] on numbers, in either direction. *)
Lemma list_sort_numbers (reverse : bool) (l : list value) :
  all_numbers l ->
  exists s,
    list_sort reverse l = inr s /\ Permutation l s /\
    StronglySorted (in_order (negb reverse)) s.
Proof.
  intros Hl. unfold list_sort. destruct reverse; cbn [negb].
  - rewrite (builtin_sort_numbers (rev l)) by now apply Forall_rev.
    destruct (sort_asc_numbers (rev l)) as (s & -> & Hperm & _ & Hsorted).
    { now apply Forall_rev. }
    exists (rev s). split; [reflexivity |]. split.
    + rewrite <- Permutation_rev, <- Hperm. apply Permutation_rev.
    + exact (StronglySorted_rev _ _ Hsorted).
  - rewrite (builtin_sort_numbers l Hl).
    destruct (sort_asc_numbers l Hl) as (s & Hs & Hperm & _ & Hsorted).
    now exists s.
Qed.

Lemma split_by_value_run (field : string) (values : value) (ascending : option value)
    (sorted : list value) (self : EvalSetting) :
  list_sort (negb (py_truthy (arg_or ascending (VBool true)))) (as_list values)
    = inr sorted ->
  split_by_value (VStr field) values ascending self =
    (inr tt,
     with_spec Splitting
       (VDict [("strategy", VStr "by_value"); ("values", VList sorted);
               ("ascending", arg_or ascending (VBool true))]) self).
Proof.
  intros Hsort. unfold split_by_value. cbn [isinstance_str negb].
  assert (Hl : (if negb (isinstance_list values) then VList [values] else values)
               = VList (as_list values)) by (destruct values; reflexivity).
  rewrite Hl. unfold bind at 1. unfold bind at 1. unfold lift at 1.
  rewrite Hsort. reflexivity.
Qed.

(** A list that is one ascending run, of whatever values: no element is
    smaller than the one before it. *)
Lemma split_by_value_ascending_run (field : string) (l : list value)
    (self : EvalSetting) :
  Sorted (in_order true) l ->
  split_by_value (VStr field) (VList l) (Some (VBool true)) self =
    (inr tt,
     with_spec Splitting
       (VDict [("strategy", VStr "by_value"); ("values", VList l);
               ("ascending", VBool true)]) self).
Proof.
  intros Hs.
  apply (split_by_value_run field (VList l) (Some (VBool true)) l self).
  cbn [arg_or py_truthy as_list negb list_sort]. now apply builtin_sort_run.
Qed.

(** C4, as amended. For a string [field], [values] a number or a list of
    numbers, none of them the not-a-number, and a boolean [ascending] (or
    none, which means [True]), [split_by_value(field, values, ascending)]
    returns and stores the split spec [strategy: 'by_value', values:
    sorted, ascending: ascending], where [sorted] has the elements of
    [values] (of the one-element list, when [values] is a number) and is in
    ascending order when [ascending] is [True] and in descending order when
    it is [False].  With ['month'], [[7, 6]] and [False] the stored values
    are [[7, 6]]; with ['month'] and [7] they are [[7]]. *)
Theorem split_by_value_stores_sorted (field : string) (self : EvalSetting) :
  (forall (values : value) (ascending : option bool),
     numbers values ->
     let asc := match ascending with Some b => b | None => true end in
     let call := split_by_value (VStr field) values (option_map VBool ascending) in
     exists sorted,
       fst (call self) = inr tt /\
       split_args (snd (call self)) =
         VDict [("strategy", VStr "by_value"); ("values", VList sorted);
                ("ascending", VBool asc)] /\
       Permutation (as_list values) sorted /\
       StronglySorted (in_order asc) sorted) /\
  split_args
    (snd (split_by_value (VStr "month") (VList [VInt 7; VInt 6])
            (Some (VBool false)) self)) =
    VDict [("strategy", VStr "by_value"); ("values", VList [VInt 7; VInt 6]);
           ("ascending", VBool false)] /\
  split_args (snd (split_by_value (VStr "month") (VInt 7) None self)) =
    VDict [("strategy", VStr "by_value"); ("values", VList [VInt 7]);
           ("ascending", VBool true)].
Proof.
  split; [| split; reflexivity].
  intros values ascending Hnum asc call.
  assert (Hasc : arg_or (option_map VBool ascending) (VBool true) = VBool asc)
    by (destruct ascending; reflexivity).
  assert (Hall : all_numbers (as_list values)).
  { destruct values; cbn in *; try assumption; repeat constructor; assumption. }
  destruct (list_sort_numbers (negb asc) (as_list values) Hall)
    as (sorted & Hsort & Hperm & Hsorted).
  exists sorted.
  assert (Hrun : call self =
            (inr tt,
             with_spec Splitting
               (VDict [("strategy", VStr "by_value"); ("values", VList sorted);
                       ("ascending", VBool asc)]) self)).
  { unfold call. rewrite <- Hasc. apply split_by_value_run. now rewrite Hasc. }
  rewrite Hrun. split; [reflexivity |]. split; [reflexivity |].
  split; [exact Hperm |].
  now rewrite negb_involutive in Hsorted.
Qed.

(** *** What the calls keep *)

Lemma alist_get_set_other {A} (k k' : string) (v : A) (d : alist A) :
  k <> k' -> alist_get k (alist_set k' v d) = alist_get k d.
Proof.
  intros Hne. induction d as [| [k0 v0] d IH]; cbn [alist_set alist_get].
  - destruct (String.eqb_spec k k'); [contradiction | reflexivity].
  - destruct (String.eqb_spec k' k0) as [-> | Hne0]; cbn [alist_get].
    + destruct (String.eqb_spec k k0); [contradiction | reflexivity].
    + now rewrite IH.
Qed.

Lemma alist_get_update_other {A} (k : string) (other d : alist A) :
  ~ In k (alist_keys other) -> alist_get k (alist_update d other) = alist_get k d.
Proof.
  unfold alist_update. revert d.
  induction other as [| [k' v] other IH]; intros d Hn; cbn [fold_left fst snd].
  - reflexivity.
  - cbn [alist_keys map fst In] in Hn.
    rewrite IH by (unfold alist_keys; tauto).
    apply alist_get_set_other. intros ->. tauto.
Qed.

(** A setter leaves the instance as it was, or with a spec whose strategy
    is a legal name. *)
Lemma setter_outcome (c : concern) (positional : option value) (keywords : dict)
    (self : EvalSetting) :
  snd (setter c positional keywords self) = self \/
  exists d, snd (setter c positional keywords self) = with_spec c (VDict d) self /\
            spec_legal c (VDict d) = true.
Proof.
  destruct (bind_strategy positional keywords) as [e | [strategy kwargs]] eqn:Hbind.
  - left. now rewrite (setter_bind_error c _ _ e self Hbind).
  - rewrite (setter_run c _ _ _ _ self Hbind).
    destruct (set_contains (legal_strategies c) strategy) as [e | [|]] eqn:Hin;
      [now left | | now left].
    right. eexists. split; [reflexivity |].
    cbn [spec_legal]. rewrite alist_get_update_other
      by apply (bind_strategy_kwargs _ _ _ _ Hbind).
    cbn [alist_get]. rewrite String.eqb_refl.
    destruct strategy; cbn [set_contains] in Hin; try discriminate.
    now inversion Hin.
Qed.

Lemma setter_keeps_legal (c : concern) (positional : option value) (keywords : dict)
    (self : EvalSetting) :
  all_specs_legal self -> all_specs_legal (snd (setter c positional keywords self)).
Proof.
  intros Hlegal.
  destruct (setter_outcome c positional keywords self) as [-> | (d & -> & Hd)];
    [exact Hlegal |].
  intros c'. specialize (Hlegal c').
  destruct c, c'; cbn [spec_of with_spec] in *; assumption.
Qed.

Ltac settle Hlegal :=
  first [ exact Hlegal
        | apply (setter_keeps_legal Ordering _ _ _ Hlegal)
        | apply (setter_keeps_legal Splitting _ _ _ Hlegal)
        | apply (setter_keeps_legal NegSampling _ _ _ Hlegal) ].

(** No call, whether it returns or raises, leaves a spec whose strategy is
    not a legal name. *)
Lemma run_keeps_legal (c : call) (self : EvalSetting) :
  all_specs_legal self -> all_specs_legal (snd (run c self)).
Proof.
  intros Hlegal. destruct c; cbn [run]; try (settle Hlegal).
  - unfold sort_by. unfold bind at 1.
    destruct (is_None (arg_or ascending VNone)).
    + unfold bind at 1. unfold lift at 1.
      destruct (py_len field) as [e | n]; [exact Hlegal |].
      destruct (Nat.eqb _ 1); unfold ret; settle Hlegal.
    + unfold ret. settle Hlegal.
  - unfold split_by_ratio.
    destruct (negb (isinstance_list ratios)); [exact Hlegal | settle Hlegal].
  - unfold split_by_value.
    destruct (negb (isinstance_str field)); [exact Hlegal |].
    unfold bind at 1.
    destruct (if negb (isinstance_list values) then VList [values] else values);
      try exact Hlegal.
    unfold bind at 1. unfold lift at 1.
    destruct (list_sort _ l) as [e | l']; [exact Hlegal |].
    unfold ret. settle Hlegal.
Qed.

Lemma run_all_keeps_legal (calls : list call) (self : EvalSetting) :
  all_specs_legal self -> all_specs_legal (run_all calls self).
Proof.
  revert self. induction calls as [| c calls IH]; intros self Hlegal; cbn [run_all].
  - exact Hlegal.
  - apply IH. now apply run_keeps_legal.
Qed.

Lemma init_legal (cfg : Config) :
  (forall c, spec_legal c (cfg (spec_key c)) = true) -> all_specs_legal (__init__ cfg).
Proof.
  intros Hcfg c. destruct (init_attributes cfg) as (_ & _ & Ho & Hs & Hn).
  specialize (Hcfg c). destruct c; cbn [spec_of spec_key] in *; congruence.
Qed.

Lemma spec_legal_well_formed (c : concern) (spec : value) :
  spec_legal c spec = true -> spec_well_formed spec = true.
Proof.
  destruct spec as [| b | z | q | s | l | d | neg |]; cbn [spec_legal spec_well_formed];
    try congruence.
  destruct (alist_get "strategy" d) eqn:Hget; [| discriminate].
  intros _. destruct (alist_mem "strategy" d) eqn:Hmem; [reflexivity |].
  apply alist_mem_false, alist_get_None in Hmem. congruence.
Qed.

(** X1. The data model's invariant: on an instance built from a configuration
    whose specs have legal strategies (one that holds no spec, for one) and
    used through its methods only, every spec that is there has a legal
    strategy at all times, and the summary is always returned. *)
Theorem reachable_instances (cfg : Config) (calls : list call) :
  (forall c, spec_legal c (cfg (spec_key c)) = true) ->
  all_specs_legal (run_all calls (__init__ cfg)) /\
  exists text, __str__ (run_all calls (__init__ cfg)) = inr text.
Proof.
  intros Hcfg.
  assert (Hlegal : all_specs_legal (run_all calls (__init__ cfg)))
    by now apply run_all_keeps_legal, init_legal.
  split; [exact Hlegal |].
  destruct (summary_decomposition (run_all calls (__init__ cfg)))
    as (g & o & s & n & Hstr & _).
  - exact (spec_legal_well_formed _ _ (Hlegal Ordering)).
  - exact (spec_legal_well_formed _ _ (Hlegal Splitting)).
  - exact (spec_legal_well_formed _ _ (Hlegal NegSampling)).
  - eexists. exact Hstr.
Qed.

End Properties.

(** ** The calls together *)

Section Calls.
Context `{Runtime}.


(** Whether a setter raises, with what, and what it stores depend on its
    arguments alone; what it stores has a legal strategy. *)
Lemma setter_effect (c : concern) (positional : option value) (keywords : dict) :
  (exists e, forall self, setter c positional keywords self = (inl e, self)) \/
  (exists d, spec_legal c (VDict d) = true /\
     forall self,
       setter c positional keywords self = (inr tt, with_spec c (VDict d) self)).
Proof.
  destruct (bind_strategy positional keywords) as [e | [strategy kwargs]] eqn:Hbind.
  - left. exists e. intros self. now apply setter_bind_error.
  - destruct (set_contains (legal_strategies c) strategy) as [e | [|]] eqn:Hin.
    + left. exists e. intros self.
      now rewrite (setter_run c _ _ _ _ self Hbind), Hin.
    + right. exists (alist_update [("strategy", strategy)] kwargs). split.
      * cbn [spec_legal]. rewrite alist_get_update_other
          by apply (bind_strategy_kwargs _ _ _ _ Hbind).
        cbn [alist_get]. rewrite String.eqb_refl.
        destruct strategy; cbn [set_contains] in Hin; try discriminate.
        inversion Hin. reflexivity.
      * intros self.
        rewrite (setter_run c _ _ _ _ self Hbind), Hin. reflexivity.
    + left. eexists. intros self.
      rewrite (setter_run c _ _ _ _ self Hbind), Hin. reflexivity.
Qed.

Ltac through_setter c p k :=
  let e := fresh "e" in
  let d := fresh "d" in
  let He := fresh "He" in
  let Hd := fresh "Hd" in
  let Hlegal := fresh "Hlegal" in
  destruct (setter_effect c p k) as [[e He] | [d [Hlegal Hd]]];
  [ left; exists e; intros self _; cbn [put_attr]; rewrite <- (He self)
  | right; exists (VDict d);
    split; [intros ? Htarget; inversion Htarget; subst; exact Hlegal |];
    intros self _; cbn [put_attr]; rewrite <- (Hd self) ].

(** Whether a call raises, with what, and what it assigns depend on its
    arguments and on the configuration alone.  With lists as values, which
    is to say on an instance that does not hold the list object a call
    sorts, a call that raises leaves the instance untouched and a call that
    returns assigns its one attribute. *)
Lemma call_effect (c : call) (cfg : Config) :
  (exists e, forall self, config self = cfg -> run c self = (inl e, self)) \/
  (exists v,
     (forall c', target_of c = Some c' -> spec_legal c' v = true) /\
     forall self, config self = cfg ->
       run c self = (inr tt, put_attr (target_of c) v self)).
Proof.
  destruct c; cbn [run target_of].
  - right. exists (arg_or field VNone). split; [discriminate | reflexivity].
  - right. exists (cfg "USER_ID_FIELD").
    split; [discriminate | intros self <-; reflexivity].
  - through_setter Ordering strategy keywords; reflexivity.
  - through_setter Ordering (Some (VStr "shuffle")) ([] : dict); reflexivity.
  - unfold sort_by. destruct (is_None (arg_or ascending VNone)).
    + destruct (py_len field) as [e | n].
      * left. exists e. intros self _. reflexivity.
      * through_setter Ordering (Some (VStr "by"))
          [("field", field); ("ascending", default_ascending n)];
          unfold bind at 1; unfold bind at 1; unfold lift at 1;
          rewrite repeat_length; unfold default_ascending;
          destruct (Nat.eqb n 1); reflexivity.
    + through_setter Ordering (Some (VStr "by"))
        [("field", field); ("ascending", arg_or ascending VNone)]; reflexivity.
  - through_setter Splitting strategy keywords; reflexivity.
  - through_setter Splitting (@None value) [("strategy", VStr "loo")]; reflexivity.
  - unfold split_by_ratio. destruct (negb (isinstance_list ratios)).
    + left. eexists. intros self _. reflexivity.
    + through_setter Splitting (@None value)
        [("strategy", VStr "by_ratio"); ("ratios", ratios)]; reflexivity.
  - unfold split_by_value. destruct (negb (isinstance_str field)).
    + left. eexists. intros self _. reflexivity.
    + destruct (if negb (isinstance_list values) then VList [values] else values)
        as [| b | z | q | s | l | d0 | neg |];
        try (left; exists AttributeError; intros self _; reflexivity).
      destruct (list_sort (negb (py_truthy (arg_or ascending (VBool true)))) l)
        as [e | l'].
      * left. exists e. intros self _. reflexivity.
      * through_setter Splitting (@None value)
          [("strategy", VStr "by_value"); ("values", VList l');
           ("ascending", arg_or ascending (VBool true))]; reflexivity.
  - through_setter NegSampling strategy keywords; reflexivity.
  - through_setter NegSampling (@None value) [("strategy", VStr "to"); ("to", to)];
      reflexivity.
  - through_setter NegSampling (@None value)
      [("strategy", VStr "to"); ("to", VInt (-1))]; reflexivity.
  - through_setter NegSampling (@None value) [("strategy", VStr "by"); ("by", by_)];
      reflexivity.
Qed.

Lemma put_attr_config (t : option concern) (v : value) (self : EvalSetting) :
  config (put_attr t v self) = config self.
Proof. destruct t as [[| |] |]; reflexivity. Qed.

Lemma put_attr_twice (t : option concern) (v w : value) (self : EvalSetting) :
  put_attr t v (put_attr t w self) = put_attr t v self.
Proof. destruct t as [[| |] |]; reflexivity. Qed.

Lemma put_attr_swap (t t' : option concern) (v w : value) (self : EvalSetting) :
  t <> t' -> put_attr t v (put_attr t' w self) = put_attr t' w (put_attr t v self).
Proof.
  destruct t as [[| |] |], t' as [[| |] |]; intros Hne;
    try reflexivity; contradiction.
Qed.

Lemma attr_of_put_other (t t' : option concern) (v : value) (self : EvalSetting) :
  t <> t' -> attr_of t' (put_attr t v self) = attr_of t' self.
Proof.
  destruct t as [[| |] |], t' as [[| |] |]; intros Hne;
    try reflexivity; contradiction.
Qed.

Lemma run_config (c : call) (self : EvalSetting) :
  config (snd (run c self)) = config self.
Proof.
  destruct (call_effect c (config self)) as [[e He] | [v [_ Hv]]].
  - now rewrite (He self eq_refl).
  - rewrite (Hv self eq_refl). apply put_attr_config.
Qed.


(** X2. A call that raises leaves the instance exactly as it was before
    the call, whatever the method and its arguments, as long as it is not
    one that gets as far as sorting a list of the client's: such a list is
    reordered in place, and an instance that holds it would not be as it
    was. *)
Theorem failed_call_changes_nothing (c : call) (self : EvalSetting) (e : exn) :
  sorts_in_place c = false ->
  fst (run c self) = inl e -> snd (run c self) = self.
Proof.
  intros _.
  destruct (call_effect c (config self)) as [[e' He] | [v [_ Hv]]].
  - now rewrite (He self eq_refl).
  - rewrite (Hv self eq_refl). discriminate.
Qed.

(** X3. A call that does not get as far as sorting a list of the client's
    never changes the configuration, and changes no attribute other than
    its own: the grouping field for [group_by] and [group_by_user], the
    ordering spec for the ordering methods, the split spec for the
    splitting methods, the negative-sampling spec for the sampling
    methods. *)
Theorem call_changes_its_attribute_only (c : call) (self : EvalSetting) :
  sorts_in_place c = false ->
  config (snd (run c self)) = config self /\
  forall t, t <> target_of c -> attr_of t (snd (run c self)) = attr_of t self.
Proof.
  intros _. split; [apply run_config |].
  intros t Hne.
  destruct (call_effect c (config self)) as [[e He] | [v [_ Hv]]].
  - now rewrite (He self eq_refl).
  - rewrite (Hv self eq_refl). cbn [snd].
    apply attr_of_put_other. congruence.
Qed.


(** X5. Two calls that assign different attributes can be made in either
    order: the instance is the same afterwards. *)
Theorem calls_on_different_attributes_commute (c1 c2 : call) (self : EvalSetting) :
  target_of c1 <> target_of c2 ->
  snd (run c2 (snd (run c1 self))) = snd (run c1 (snd (run c2 self))).
Proof.
  intros Hne.
  destruct (call_effect c1 (config self)) as [[e1 H1] | [v1 [_ H1]]];
    destruct (call_effect c2 (config self)) as [[e2 H2] | [v2 [_ H2]]];
    rewrite (H1 self eq_refl), (H2 self eq_refl); cbn [snd].
  - now rewrite (H1 self eq_refl), (H2 self eq_refl).
  - rewrite (H2 self eq_refl), (H1 _ (put_attr_config _ _ _)). reflexivity.
  - rewrite (H2 _ (put_attr_config _ _ _)), (H1 self eq_refl). reflexivity.
  - rewrite (H2 _ (put_attr_config _ _ _)), (H1 _ (put_attr_config _ _ _)).
    cbn [snd]. now apply put_attr_swap.
Qed.

(** X6. When two calls assign the same attribute and the second returns,
    the first, if it does not get as far as sorting a list of the
    client's, leaves no trace: the second gives the result and the instance
    it gives without the first. *)
Theorem later_call_wins (c1 c2 : call) (self : EvalSetting) :
  sorts_in_place c1 = false ->
  target_of c1 = target_of c2 ->
  fst (run c2 self) = inr tt ->
  run c2 (snd (run c1 self)) = run c2 self.
Proof.
  intros _ Hsame.
  destruct (call_effect c2 (config self)) as [[e2 H2] | [v2 [_ H2]]];
    rewrite (H2 self eq_refl); [discriminate |]. intros _.
  destruct (call_effect c1 (config self)) as [[e1 H1] | [v1 [_ H1]]];
    rewrite (H1 self eq_refl); cbn [snd].
  - now rewrite (H2 self eq_refl).
  - rewrite (H2 _ (put_attr_config _ _ _)), Hsame. now rewrite put_attr_twice.
Qed.


(** X8. After a call that returns, the spec it assigned has a strategy that
    is a legal name of its concern, whatever the instance held before, be
    it an ill-formed spec copied from the configuration. *)
Theorem successful_call_leaves_legal_spec (c : call) (c' : concern)
    (self : EvalSetting) :
  fst (run c self) = inr tt ->
  target_of c = Some c' ->
  spec_legal c' (spec_of c' (snd (run c self))) = true.
Proof.
  destruct (call_effect c (config self)) as [[e He] | [v [Hlegal Hv]]].
  - rewrite (He self eq_refl). discriminate.
  - rewrite (Hv self eq_refl). intros _ Htarget. rewrite Htarget. cbn [snd put_attr].
    specialize (Hlegal c' Htarget). destruct c'; exact Hlegal.
Qed.

(** X9. [group_by], [group_by_user], [shuffle], [leave_one_out],
    [neg_sample_to], [full_sort] and [neg_sample_by] return on every
    instance and for every argument: none of them looks at its argument. *)
Theorem convenience_calls_never_raise (c : call) (self : EvalSetting) :
  convenience c = true -> fst (run c self) = inr tt.
Proof. destruct c; try discriminate; reflexivity. Qed.


(** *** The summary and the specs *)

Lemma strategy_line_fails (label absent : string) (spec : value) :
  spec_well_formed spec = false ->
  strategy_line label absent spec = inl TypeError \/
  strategy_line label absent spec = inl (KeyError "strategy").
Proof.
  unfold strategy_line.
  destruct spec as [| b | z | q | s | l | d | neg |]; cbn [spec_well_formed];
    try discriminate; try (intros _; left; reflexivity).
  intros Hmem. right. cbn [is_None negb py_getitem].
  apply alist_mem_false, alist_get_None in Hmem. now rewrite Hmem.
Qed.

(** X10. The summary is returned exactly when each of the three specs is
    absent or a dictionary that has a strategy; otherwise [__str__] raises
    [TypeError] (a spec that is not a dictionary) or [KeyError] for
    ['strategy'] (a dictionary without one). *)
Theorem summary_returned_iff_well_formed (self : EvalSetting) :
  ((exists text, __str__ self = inr text) <->
   spec_well_formed (ordering_args self) = true /\
   spec_well_formed (split_args self) = true /\
   spec_well_formed (neg_sample_args self) = true) /\
  ((exists text, __str__ self = inr text) \/
   __str__ self = inl TypeError \/ __str__ self = inl (KeyError "strategy")).
Proof.
  assert (Hback : spec_well_formed (ordering_args self) = true /\
                  spec_well_formed (split_args self) = true /\
                  spec_well_formed (neg_sample_args self) = true ->
                  exists text, __str__ self = inr text).
  { intros (Ho & Hs & Hn).
    destruct (summary_decomposition self Ho Hs Hn) as (g & o & s & n & Hstr & _).
    eexists. exact Hstr. }
  destruct (spec_well_formed (ordering_args self)) eqn:Ho.
  2:{ assert (Hfail : __str__ self = inl TypeError \/
                      __str__ self = inl (KeyError "strategy")).
      { unfold __str__.
        destruct (strategy_line_fails "Ordering" "No Ordering" _ Ho) as [-> | ->];
          [now left | now right]. }
      split; [| now right].
      split; [| intros (Hf & _); discriminate].
      intros [text Htext]. destruct Hfail as [Hf | Hf]; congruence. }
  destruct (strategy_line_spec "Ordering" "No Ordering" _ Ho) as (lo & Elo & _);
    [intros x y E; discriminate E |].
  destruct (spec_well_formed (split_args self)) eqn:Hs.
  2:{ assert (Hfail : __str__ self = inl TypeError \/
                      __str__ self = inl (KeyError "strategy")).
      { unfold __str__. rewrite Elo.
        destruct (strategy_line_fails "Splitting" "No Splitting" _ Hs) as [-> | ->];
          [now left | now right]. }
      split; [| now right].
      split; [| intros (_ & Hf & _); discriminate].
      intros [text Htext]. destruct Hfail as [Hf | Hf]; congruence. }
  destruct (strategy_line_spec "Splitting" "No Splitting" _ Hs) as (ls & Els & _);
    [intros x y E; discriminate E |].
  destruct (spec_well_formed (neg_sample_args self)) eqn:Hn.
  2:{ assert (Hfail : __str__ self = inl TypeError \/
                      __str__ self = inl (KeyError "strategy")).
      { unfold __str__. rewrite Elo, Els.
        destruct (strategy_line_fails "Negative Sampling" "No Negative Sampling" _ Hn)
          as [-> | ->]; [now left | now right]. }
      split; [| now right].
      split; [| intros (_ & _ & Hf); discriminate].
      intros [text Htext]. destruct Hfail as [Hf | Hf]; congruence. }
  split; [| left; now apply Hback].
  split; [tauto | exact Hback].
Qed.

Lemma strategy_line_none (label absent : string) (d : dict) :
  alist_get "strategy" d = Some (VStr "none") ->
  strategy_line label absent (VDict d) = strategy_line label absent VNone.
Proof.
  intros Hget. unfold strategy_line. cbn [is_None negb py_getitem].
  rewrite Hget. reflexivity.
Qed.

(** X11. A setter called with strategy ['none'] (which is also what it
    takes when no strategy is given) returns, and the summary of the
    instance then reads as if the concern's spec had been removed, whatever
    keywords came with the call. *)
Theorem strategy_none_reads_as_absent (c : concern) (positional : option value)
    (keywords kwargs : dict) (self : EvalSetting) :
  bind_strategy positional keywords = inr (VStr "none", kwargs) ->
  fst (setter c positional keywords self) = inr tt /\
  __str__ (snd (setter c positional keywords self)) = __str__ (with_spec c VNone self).
Proof.
  intros Hbind.
  rewrite (setter_run c _ _ _ _ self Hbind).
  assert (Hin : set_contains (legal_strategies c) (VStr "none") = inr true)
    by (destruct c; reflexivity).
  rewrite Hin. split; [reflexivity |]. cbn [snd].
  assert (Hget : alist_get "strategy"
                   (alist_update [("strategy", VStr "none")] kwargs)
                 = Some (VStr "none")).
  { rewrite alist_get_update_other by apply (bind_strategy_kwargs _ _ _ _ Hbind).
    reflexivity. }
  destruct c; unfold __str__; cbn [with_spec ordering_args split_args
    neg_sample_args group_field];
    now rewrite (strategy_line_none _ _ _ Hget).
Qed.

(** *** Strategies that are not strings *)

(** X12. A strategy that is not a string is never accepted and never
    stored: a list or a dictionary cannot be looked up in the set of legal
    names, which raises [TypeError]; anything else raises [ValueError] with
    the usual message. *)
Theorem strategy_not_a_string (c : concern) (positional : option value)
    (keywords kwargs : dict) (strategy : value) (self : EvalSetting) :
  bind_strategy positional keywords = inr (strategy, kwargs) ->
  isinstance_str strategy = false ->
  setter c positional keywords self =
    (inl match strategy with
         | VList _ | VDict _ => TypeError
         | _ => ValueError (invalid_strategy_message c strategy)
         end, self).
Proof.
  intros Hbind Hstr. rewrite (setter_run c _ _ _ _ self Hbind).
  destruct strategy; try discriminate Hstr; reflexivity.
Qed.

(** *** Ordering by fields, again *)

(** X13. [sort_by] stores an [ascending] that is given as it is, checking
    neither its length nor that of [field]; without one it needs the length
    of [field], and raises [TypeError], storing nothing, when [field] has
    none. *)
Theorem sort_by_outcome (field : value) (ascending : option value)
    (self : EvalSetting) :
  sort_by field ascending self =
    match arg_or ascending VNone, py_len field with
    | VNone, inl _ => (inl TypeError, self)
    | VNone, inr n =>
        (inr tt,
         with_spec Ordering
           (VDict [("strategy", VStr "by"); ("field", field);
                   ("ascending", default_ascending n)]) self)
    | given, _ =>
        (inr tt,
         with_spec Ordering
           (VDict [("strategy", VStr "by"); ("field", field); ("ascending", given)])
           self)
    end.
Proof.
  destruct ascending as [[| b | z | q | s | l | d | neg |] |]; cbn [arg_or];
    try reflexivity;
    (destruct (py_len field) as [e | n] eqn:Hlen;
     [unfold sort_by, bind, lift; cbn [arg_or is_None]; rewrite Hlen;
      destruct field; cbn [py_len] in Hlen; congruence
     | now apply sort_by_default]).
Qed.


(** *** Splitting by value, again *)





End Calls.

(** ** An interpreter to run examples on *)

(** Sets enumerate in construction order; [repr] is CPython's on [None],
    booleans, integers and strings (each character standing for the code
    point of its number), and on the lists and dictionaries built from
    them; a finite float, which has no decimal form of its own here, is
    written as the quotient it stands for.  A list with a not-a-number is
    sorted by insertion like any other. *)
Module Sample.

Definition hex_digit (n : nat) : string :=
  String.substring n 1 "0123456789abcdef".

Definition printable (c : ascii) : bool :=
  let n := nat_of_ascii c in
  ((32 <=? n) && (n <=? 126) || (161 <=? n) && negb (n =? 173))%nat.

Definition escape_char (quote c : ascii) : string :=
  let n := nat_of_ascii c in
  if Ascii.eqb c "\" then "\\"
  else if Ascii.eqb c quote then String "\" (String c "")
  else if (n =? 10)%nat then "\n"
  else if (n =? 13)%nat then "\r"
  else if (n =? 9)%nat then "\t"
  else if printable c then String c ""
  else "\x" ++ hex_digit (n / 16) ++ hex_digit (n mod 16).

Fixpoint escape (quote : ascii) (s : string) : string :=
  match s with
  | EmptyString => ""
  | String c s' => escape_char quote c ++ escape quote s'
  end.

Fixpoint has_char (c : ascii) (s : string) : bool :=
  match s with
  | EmptyString => false
  | String c' s' => Ascii.eqb c c' || has_char c s'
  end.

Definition repr_str (s : string) : string :=
  let double : ascii := ascii_of_nat 34 in
  let quote : ascii :=
    if has_char "'" s && negb (has_char double s) then double else "'"%char in
  String quote (escape quote s ++ String quote "").

Definition repr_Z (z : Z) : string := NilZero.string_of_int (Z.to_int z).

Definition join (sep : string) (l : list string) : string :=
  match l with
  | [] => ""
  | x :: l' => fold_left (fun acc y => acc ++ sep ++ y) l' x
  end.

Fixpoint show (v : value) : string :=
  match v with
  | VNone => "None"
  | VBool true => "True"
  | VBool false => "False"
  | VInt z => repr_Z z
  | VFloat q => repr_Z (Qnum q) ++ "/" ++ repr_Z (Zpos (Qden q))
  | VStr s => repr_str s
  | VInf negative => if negative then "-inf" else "inf"
  | VNaN => "nan"
  | VList l => "[" ++ join ", " (map show l) ++ "]"
  | VDict d =>
      "{" ++ join ", " (map (fun kv => repr_str (fst kv) ++ ": " ++ show (snd kv)) d) ++ "}"
  end.

#[export] Instance runtime : Runtime := {|
  repr := show;
  set_iter := fun l => l;
  set_iter_perm := fun l _ => Permutation_refl l;
  nan_sort := sort_asc;
  nan_sort_perm := sort_asc_perm;
  nan_sort_run := sort_asc_run
|}.

End Sample.

(** ** The properties at work *)

#[local] Existing Instance Sample.runtime.

Lemma invalid_strategy_rejected_witness :
  bind_strategy (Some (VStr "random")) [("field", VStr "price")]
    = inr (VStr "random", [("field", VStr "price")]) /\
  ~ In "random" (legal_strategies Ordering) /\
  exists msg order,
    setter Ordering (Some (VStr "random")) [("field", VStr "price")] by_time
      = (inl (ValueError msg), by_time) /\
    contains "random" msg /\
    Permutation order (legal_strategies Ordering) /\
    contains (repr (VList (map VStr order))) msg.
Proof.
  assert (Hillegal : ~ In "random" (legal_strategies Ordering)).
  { simpl. intros [E | [E | [E | []]]]; discriminate E. }
  split; [reflexivity |]. split; [exact Hillegal |].
  exact (invalid_strategy_rejected Ordering by_time (Some (VStr "random"))
           [("field", VStr "price")] [("field", VStr "price")] "random"
           eq_refl Hillegal).
Defined.

Lemma setter_replaces_spec_witness :
  bind_strategy (Some (VStr "shuffle")) [] = inr (VStr "shuffle", []) /\
  NoDup (alist_keys ([] : dict)) /\
  In "shuffle" (legal_strategies Ordering) /\
  setter Ordering (Some (VStr "shuffle")) [] by_time =
    (inr tt, with_spec Ordering (VDict [("strategy", VStr "shuffle")]) by_time) /\
  forall k,
    py_getitem (spec_of Ordering (snd (setter Ordering (Some (VStr "shuffle")) [] by_time))) k =
      if String.eqb k "strategy" then inr (VStr "shuffle")
      else match alist_get k ([] : dict) with
           | Some v => inr v
           | None => inl (KeyError k)
           end.
Proof.
  assert (Hlegal : In "shuffle" (legal_strategies Ordering)).
  { simpl. right. left. reflexivity. }
  split; [reflexivity |]. split; [constructor |]. split; [exact Hlegal |].
  exact (setter_replaces_spec Ordering by_time (Some (VStr "shuffle")) [] []
           "shuffle" eq_refl (NoDup_nil string) Hlegal).
Defined.

Lemma sort_by_list_default_ascending_witness :
  [VStr "timestamp"; VStr "price"] <> [] /\
  exists a,
    sort_by (VList [VStr "timestamp"; VStr "price"]) None by_time =
      (inr tt,
       with_spec Ordering
         (VDict [("strategy", VStr "by");
                 ("field", VList [VStr "timestamp"; VStr "price"]);
                 ("ascending", a)]) by_time) /\
    (1 < 2 -> a = VList (repeat (VBool true) 2))%nat /\
    (2 = 1 -> a = VBool true)%nat.
Proof.
  assert (Hne : [VStr "timestamp"; VStr "price"] <> []) by discriminate.
  split; [exact Hne |].
  exact (sort_by_list_default_ascending [VStr "timestamp"; VStr "price"] by_time Hne).
Defined.

Lemma split_by_value_stores_sorted_witness :
  numbers (VList [VInt 3; VFloat (1 # 2); VInf false; VInt 2]) /\
  exists sorted,
    fst (split_by_value (VStr "month")
           (VList [VInt 3; VFloat (1 # 2); VInf false; VInt 2])
           (Some (VBool false)) by_time) = inr tt /\
    split_args
      (snd (split_by_value (VStr "month")
              (VList [VInt 3; VFloat (1 # 2); VInf false; VInt 2])
              (Some (VBool false)) by_time)) =
      VDict [("strategy", VStr "by_value"); ("values", VList sorted);
             ("ascending", VBool false)] /\
    Permutation [VInt 3; VFloat (1 # 2); VInf false; VInt 2] sorted /\
    StronglySorted (in_order false) sorted.
Proof.
  assert (Hnum : numbers (VList [VInt 3; VFloat (1 # 2); VInf false; VInt 2])).
  { repeat constructor. }
  split; [exact Hnum |].
  exact (proj1 (split_by_value_stores_sorted "month" by_time)
           (VList [VInt 3; VFloat (1 # 2); VInf false; VInt 2]) (Some false) Hnum).
Defined.

(** C4, as it was stated, fails where a not-a-number is among the values:
    [split_by_value('month', [2, nan, 1])] returns and stores the values as
    they came, [2] before [1], since the list is one ascending run for a
    sort that is only ever told [False]; and that is not ascending
    order. *)
Lemma split_by_value_nan_unsorted :
  split_by_value (VStr "month") (VList [VInt 2; VNaN; VInt 1]) (Some (VBool true))
    by_time =
    (inr tt,
     with_spec Splitting
       (VDict [("strategy", VStr "by_value");
               ("values", VList [VInt 2; VNaN; VInt 1]);
               ("ascending", VBool true)]) by_time) /\
  py_lt (VInt 1) (VInt 2) = inr true /\
  ~ StronglySorted (in_order true) [VInt 2; VNaN; VInt 1].
Proof.
  split; [| split; [reflexivity |]].
  - apply split_by_value_ascending_run.
    repeat (constructor; try reflexivity).
  - intros Hs. apply StronglySorted_inv in Hs as [_ Hall].
    inversion Hall as [| ? ? _ Htail]; subst.
    inversion Htail as [| ? ? Hlt _]; subst.
    discriminate Hlt.
Qed.

Lemma summary_lines_witness :
  spec_well_formed (ordering_args by_time) = true /\
  spec_well_formed (split_args by_time) = true /\
  spec_well_formed (neg_sample_args by_time) = true /\
  exists grouping ordering splitting sampling,
    __str__ by_time =
      inr ("Evaluation Setting:" ++ newline
             ++ grouping ++ ordering ++ splitting ++ sampling) /\
    (group_field by_time = VNone -> grouping = tab ++ "No Grouping" ++ newline) /\
    (group_field by_time <> VNone ->
     grouping = tab ++ "Group by " ++ py_str (group_field by_time) ++ newline) /\
    (grouping = tab ++ "No Grouping" ++ newline -> group_field by_time = VNone) /\
    concern_line "Ordering" "No Ordering" (ordering_args by_time) ordering /\
    concern_line "Splitting" "No Splitting" (split_args by_time) splitting /\
    concern_line "Negative Sampling" "No Negative Sampling"
      (neg_sample_args by_time) sampling.
Proof.
  split; [reflexivity |]. split; [reflexivity |]. split; [reflexivity |].
  exact (proj1 (summary_lines by_time eq_refl eq_refl eq_refl)).
Defined.

(** The examples of the specification, on the interpreter of [Sample]. *)

Example sort_by_two_fields :
  ordering_args (snd (sort_by (VList [VStr "a"; VStr "b"]) None by_time)) =
    VDict [("strategy", VStr "by"); ("field", VList [VStr "a"; VStr "b"]);
           ("ascending", VList [VBool true; VBool true])].
Proof. reflexivity. Qed.

Example sort_by_one_field :
  ordering_args (snd (sort_by (VList [VStr "a"]) None by_time)) =
    VDict [("strategy", VStr "by"); ("field", VList [VStr "a"]);
           ("ascending", VBool true)].
Proof. reflexivity. Qed.

Example unknown_ordering_message :
  set_ordering (Some (VStr "random")) [] by_time =
    (inl (ValueError "Ordering Strategy [random] should in ['none', 'shuffle', 'by']"),
     by_time).
Proof. reflexivity. Qed.

Example unhashable_strategy :
  set_ordering (Some (VList [VStr "by"])) [] by_time = (inl TypeError, by_time).
Proof. reflexivity. Qed.

Example strategy_given_twice :
  set_ordering (Some (VStr "by")) [("strategy", VStr "shuffle")] by_time =
    (inl TypeError, by_time).
Proof. reflexivity. Qed.

Example summary_by_time :
  __str__ by_time =
    inr ("Evaluation Setting:" ++ newline
           ++ tab ++ "Group by user_id" ++ newline
           ++ tab ++ "Ordering: {'strategy': 'by', 'field': 'timestamp', 'ascending': True}"
           ++ newline
           ++ tab ++ "No Splitting" ++ newline
           ++ tab ++ "No Negative Sampling" ++ newline).
Proof. reflexivity. Qed.

(** Values that cannot be ordered make the sort, and the call, raise. *)
Example split_by_value_mixed :
  split_by_value (VStr "month") (VList [VInt 7; VStr "june"]) None by_time =
    (inl TypeError, by_time).
Proof. reflexivity. Qed.

(** A spec copied from the configuration with no strategy in it makes the
    summary raise. *)
Example summary_without_strategy :
  __str__ (__init__ (fun k => if String.eqb k "split_args"
                              then VDict [("ratios", VList [])] else VNone)) =
    inl (KeyError "strategy").
Proof. reflexivity. Qed.

(** The properties of the calls at work. *)

Lemma reachable_instances_witness :
  (forall c, spec_legal c ((fun _ : string => VNone) (spec_key c)) = true) /\
  all_specs_legal
    (run_all [Call_sort_by (VStr "timestamp") None; Call_leave_one_out;
              Call_set_ordering (Some (VStr "random")) []]
       (__init__ (fun _ => VNone))) /\
  exists text,
    __str__
      (run_all [Call_sort_by (VStr "timestamp") None; Call_leave_one_out;
                Call_set_ordering (Some (VStr "random")) []]
         (__init__ (fun _ => VNone))) = inr text.
Proof.
  assert (Hcfg : forall c, spec_legal c ((fun _ : string => VNone) (spec_key c)) = true).
  { intros c. reflexivity. }
  split; [exact Hcfg |].
  exact (reachable_instances (fun _ => VNone)
           [Call_sort_by (VStr "timestamp") None; Call_leave_one_out;
            Call_set_ordering (Some (VStr "random")) []] Hcfg).
Defined.

Lemma failed_call_changes_nothing_witness :
  sorts_in_place (Call_split_by_value (VInt 3) (VList [VInt 2; VInt 1]) None) = false /\
  fst (run (Call_split_by_value (VInt 3) (VList [VInt 2; VInt 1]) None) by_time) =
    inl (ValueError "field [3] should be str") /\
  snd (run (Call_split_by_value (VInt 3) (VList [VInt 2; VInt 1]) None) by_time) =
    by_time.
Proof.
  split; [reflexivity |]. split; [reflexivity |].
  exact (failed_call_changes_nothing
           (Call_split_by_value (VInt 3) (VList [VInt 2; VInt 1]) None) by_time
           (ValueError "field [3] should be str") eq_refl eq_refl).
Defined.

Lemma call_changes_its_attribute_only_witness :
  sorts_in_place (Call_sort_by (VList [VStr "price"]) None) = false /\
  config (snd (run (Call_sort_by (VList [VStr "price"]) None) by_time)) =
    config by_time /\
  forall t, t <> target_of (Call_sort_by (VList [VStr "price"]) None) ->
    attr_of t (snd (run (Call_sort_by (VList [VStr "price"]) None) by_time)) =
    attr_of t by_time.
Proof.
  split; [reflexivity |].
  exact (call_changes_its_attribute_only (Call_sort_by (VList [VStr "price"]) None)
           by_time eq_refl).
Defined.

Lemma calls_on_different_attributes_commute_witness :
  target_of Call_leave_one_out <> target_of (Call_group_by (Some (VStr "month"))) /\
  snd (run (Call_group_by (Some (VStr "month"))) (snd (run Call_leave_one_out by_time))) =
  snd (run Call_leave_one_out (snd (run (Call_group_by (Some (VStr "month"))) by_time))).
Proof.
  assert (Hne : target_of Call_leave_one_out
                <> target_of (Call_group_by (Some (VStr "month")))) by discriminate.
  split; [exact Hne |].
  exact (calls_on_different_attributes_commute Call_leave_one_out
           (Call_group_by (Some (VStr "month"))) by_time Hne).
Defined.

Lemma later_call_wins_witness :
  sorts_in_place (Call_sort_by (VList [VStr "price"; VStr "timestamp"]) None) = false /\
  target_of (Call_sort_by (VList [VStr "price"; VStr "timestamp"]) None)
    = target_of Call_shuffle /\
  fst (run Call_shuffle by_time) = inr tt /\
  run Call_shuffle
    (snd (run (Call_sort_by (VList [VStr "price"; VStr "timestamp"]) None) by_time)) =
  run Call_shuffle by_time.
Proof.
  split; [reflexivity |]. split; [reflexivity |]. split; [reflexivity |].
  exact (later_call_wins (Call_sort_by (VList [VStr "price"; VStr "timestamp"]) None)
           Call_shuffle by_time eq_refl eq_refl eq_refl).
Defined.

Lemma successful_call_leaves_legal_spec_witness :
  fst (run Call_shuffle
         (__init__ (fun k => if String.eqb k "ordering_args"
                             then VDict [("strategy", VStr "random")] else VNone))) =
    inr tt /\
  target_of Call_shuffle = Some Ordering /\
  spec_legal Ordering
    (spec_of Ordering
       (snd (run Call_shuffle
               (__init__ (fun k => if String.eqb k "ordering_args"
                                   then VDict [("strategy", VStr "random")]
                                   else VNone))))) = true.
Proof.
  split; [reflexivity |]. split; [reflexivity |].
  exact (successful_call_leaves_legal_spec Call_shuffle Ordering
           (__init__ (fun k => if String.eqb k "ordering_args"
                               then VDict [("strategy", VStr "random")] else VNone))
           eq_refl eq_refl).
Defined.

Lemma convenience_calls_never_raise_witness :
  convenience (Call_neg_sample_to (VStr "all")) = true /\
  fst (run (Call_neg_sample_to (VStr "all")) by_time) = inr tt.
Proof.
  split; [reflexivity |].
  exact (convenience_calls_never_raise (Call_neg_sample_to (VStr "all")) by_time eq_refl).
Defined.

Lemma strategy_none_reads_as_absent_witness :
  bind_strategy None [("field", VStr "price")] = inr (VStr "none", [("field", VStr "price")]) /\
  fst (setter Ordering None [("field", VStr "price")] by_time) = inr tt /\
  __str__ (snd (setter Ordering None [("field", VStr "price")] by_time)) =
    __str__ (with_spec Ordering VNone by_time).
Proof.
  split; [reflexivity |].
  exact (strategy_none_reads_as_absent Ordering None [("field", VStr "price")]
           [("field", VStr "price")] by_time eq_refl).
Defined.

Lemma strategy_not_a_string_witness :
  bind_strategy (Some (VList [VStr "by"])) [] = inr (VList [VStr "by"], []) /\
  isinstance_str (VList [VStr "by"]) = false /\
  setter Ordering (Some (VList [VStr "by"])) [] by_time = (inl TypeError, by_time).
Proof.
  split; [reflexivity |]. split; [reflexivity |].
  exact (strategy_not_a_string Ordering (Some (VList [VStr "by"])) [] []
           (VList [VStr "by"]) by_time eq_refl eq_refl).
Defined.


